(** * Stock market analysis: the metrics engine of [stock_analysis.py]

    A shallow embedding of [StockAnalyzer] ([fetch_data], [calculate_metrics],
    [print_summary]) together with the pandas operations it calls, and the
    properties of the specification settled against it.

    Numbers.  The program computes on Python floats.  Finite values are
    modelled by real numbers with exact arithmetic (no rounding, no
    overflow); the IEEE special values that the program can produce without
    rounding (the infinities of a division by zero, and NaN, which pandas
    uses for a missing entry) are kept as constructors of their own.  Signed
    zeros are not distinguished.

    What is proved over this model is therefore a statement under exact
    arithmetic.  Where rounding decides whether a statement holds of the
    program, the daily returns and their reductions are computed once more
    on binary64 numbers, in the module [Binary64]. *)

From Stdlib Require Import Reals Lra Lia String List Bool Arith.
From Stdlib Require PrimFloat.
Import ListNotations.

Open Scope R_scope.

(** ** Floats *)

Module Float.

Inductive float : Type :=
| Fin (x : R)
| PInf
| NInf
| NaN.

(** Sign of a real, as the three-way test the special cases need. *)
Definition Rsign (x : R) : comparison :=
  match total_order_T x 0 with
  | inleft (left _) => Lt
  | inleft (right _) => Eq
  | inright _ => Gt
  end.

(** [x != x]: the test behind [isna]. *)
Definition isna (a : float) : bool :=
  match a with NaN => true | _ => false end.

Definition fneg (a : float) : float :=
  match a with
  | Fin x => Fin (- x)
  | PInf => NInf
  | NInf => PInf
  | NaN => NaN
  end.

Definition fadd (a b : float) : float :=
  match a, b with
  | NaN, _ | _, NaN => NaN
  | Fin x, Fin y => Fin (x + y)
  | PInf, NInf | NInf, PInf => NaN
  | PInf, _ | _, PInf => PInf
  | NInf, _ | _, NInf => NInf
  end.

Definition fsub (a b : float) : float := fadd a (fneg b).

(** The infinity of the given sign; a zero sign is the invalid operation. *)
Definition signed_inf (s : comparison) : float :=
  match s with Gt => PInf | Lt => NInf | Eq => NaN end.

Definition fsign (a : float) : comparison :=
  match a with
  | Fin x => Rsign x
  | PInf => Gt
  | NInf => Lt
  | NaN => Eq
  end.

Definition sign_mul (s t : comparison) : comparison :=
  match s, t with
  | Eq, _ | _, Eq => Eq
  | Gt, Gt | Lt, Lt => Gt
  | Gt, Lt | Lt, Gt => Lt
  end.

Definition fmul (a b : float) : float :=
  match a, b with
  | NaN, _ | _, NaN => NaN
  | Fin x, Fin y => Fin (x * y)
  | _, _ => signed_inf (sign_mul (fsign a) (fsign b))
  end.

(** Division; a finite divisor equal to zero is the positive zero. *)
Definition fdiv (a b : float) : float :=
  match a, b with
  | NaN, _ | _, NaN => NaN
  | Fin x, Fin y =>
      match Rsign y with
      | Eq => signed_inf (Rsign x)
      | _ => Fin (x / y)
      end
  | Fin _, _ => Fin 0
  | _, Fin y =>
      match Rsign y with
      | Lt => fneg a
      | _ => a
      end
  | _, _ => NaN
  end.

Definition fsqrt (a : float) : float :=
  match a with
  | Fin x => match Rsign x with Lt => NaN | _ => Fin (sqrt x) end
  | PInf => PInf
  | NInf | NaN => NaN
  end.

(** [a < b] on floats: false as soon as one side is NaN. *)
Definition fltb (a b : float) : bool :=
  match a, b with
  | NaN, _ | _, NaN => false
  | Fin x, Fin y => if Rlt_dec x y then true else false
  | NInf, NInf => false
  | NInf, _ => true
  | _, PInf => match a with PInf => false | _ => true end
  | _, _ => false
  end.

(** [a > b] is [b < a]. *)
Definition fgtb (a b : float) : bool := fltb b a.

(** [a <= b] on floats: false as soon as one side is NaN. *)
Definition fleb (a b : float) : bool :=
  match a, b with
  | NaN, _ | _, NaN => false
  | Fin x, Fin y => if Rle_dec x y then true else false
  | NInf, _ => true
  | _, PInf => true
  | _, _ => false
  end.

End Float.
Export Float.

(** ** The pandas operations the program calls

    A [Series] is a column of floats; NaN marks a missing entry.  Each
    reduction below follows the pandas routine it stands for, with
    [skipna=True], the default the program uses. *)

Module Pandas.

Definition Series := list float.

(** [s.shift(1)]: every entry moves one place down, NaN enters on top. *)
Definition shift (s : Series) : Series :=
  match s with
  | [] => []
  | _ :: _ => NaN :: removelast s
  end.

(** Entrywise operation of two aligned columns. *)
Fixpoint zip_with (f : float -> float -> float) (s t : Series) : Series :=
  match s, t with
  | x :: s', y :: t' => f x y :: zip_with f s' t'
  | _, _ => []
  end.

(** [s.pct_change()]: [s / s.shift(1) - 1]. *)
Definition pct_change (s : Series) : Series :=
  map (fun q => fsub q (Fin 1)) (zip_with fdiv s (shift s)).

(** [numpy.cumprod]: the running product, starting from the first entry. *)
Fixpoint running_prod (acc : float) (s : Series) : Series :=
  match s with
  | [] => []
  | x :: s' => fmul acc x :: running_prod (fmul acc x) s'
  end.

Definition np_cumprod (s : Series) : Series :=
  match s with
  | [] => []
  | x :: s' => x :: running_prod x s'
  end.

(** Put [v] where the mask (the NaN entries of [s]) holds. *)
Definition putmask (s : Series) (v : float) (vals : Series) : Series :=
  zip_with (fun m x => if isna m then v else x) s vals.

(** [s.cumprod()]: missing entries count as 1 in the running product and
    stay missing in the result. *)
Definition cumprod (s : Series) : Series :=
  putmask s NaN (np_cumprod (putmask s (Fin 1) s)).

(** Sum of a list of reals. *)
Definition Rsum (l : list R) : R := fold_right Rplus 0 l.

(** [s[max(0, i+1-w) : i+1]]: the window of at most [w] entries ending at
    index [i]. *)
Definition window (w i : nat) (s : list R) : list R :=
  firstn (i + 1 - (i + 1 - w)) (skipn (i + 1 - w) s).

(** [s.rolling(window=w).mean()]: [min_periods] defaults to [w], so an
    entry whose window holds fewer than [w] observations is missing. *)
Definition rolling_mean (w : nat) (s : list R) : Series :=
  map (fun i =>
         let win := window w i s in
         if (w <=? length win)%nat
         then Fin (Rsum win / INR (length win))
         else NaN)
      (seq 0 (length s)).

(** The entries that are not missing, and their number. *)
Definition dropna (s : Series) : Series :=
  filter (fun x => negb (isna x)) s.

Definition count (s : Series) : nat := length (dropna s).

(** [numpy.sum] of a column. *)
Definition fsum (s : Series) : float := fold_left fadd s (Fin 0).

(** [s.mean()]: the sum with missing entries put to 0, over the count. *)
Definition mean (s : Series) : float :=
  match count s with
  | O => NaN
  | S _ => fdiv (fsum (putmask s (Fin 0) s)) (Fin (INR (count s)))
  end.

(** [nanvar] with [ddof=1]: a count not above [ddof] gives NaN; otherwise
    the squared deviations from the mean, missing entries put to 0, are
    summed and divided by [count - ddof]. *)
Definition var (s : Series) : float :=
  if (count s <=? 1)%nat then NaN
  else
    let values := putmask s (Fin 0) s in
    let avg := fdiv (fsum values) (Fin (INR (count s))) in
    let sqr := map (fun x => let d := fsub avg x in fmul d d) values in
    fdiv (fsum (putmask s (Fin 0) sqr)) (Fin (INR (count s) - 1)).

(** [s.std()]: the square root of [nanvar]. *)
Definition std (s : Series) : float := fsqrt (var s).

(** [numpy.max] and [numpy.min] of a column without NaN. *)
Definition np_max (s : Series) : float :=
  match s with
  | [] => NaN
  | x :: s' => fold_left (fun m y => if fltb m y then y else m) s' x
  end.

Definition np_min (s : Series) : float :=
  match s with
  | [] => NaN
  | x :: s' => fold_left (fun m y => if fltb y m then y else m) s' x
  end.

(** [s.max()]: missing entries are put to [-inf]; NaN if all are missing. *)
Definition max (s : Series) : float :=
  match count s with
  | O => NaN
  | S _ => np_max (putmask s NInf s)
  end.

(** [s.min()]: missing entries are put to [+inf]; NaN if all are missing. *)
Definition min (s : Series) : float :=
  match count s with
  | O => NaN
  | S _ => np_min (putmask s PInf s)
  end.

(** [s.iloc[-1]] and [s.iloc[0]]: [None] stands for the [IndexError] of an
    empty column. *)
Definition iloc_last {A : Type} (s : list A) : option A :=
  match s with
  | [] => None
  | x :: s' => Some (last s' x)
  end.

Definition iloc_first {A : Type} (s : list A) : option A :=
  match s with
  | [] => None
  | x :: _ => Some x
  end.

End Pandas.

(** ** Python dictionaries with string keys

    A [dict] keeps its keys in insertion order; assigning to a key that is
    already there replaces the value and leaves the key at its place. *)

Module Dict.

Definition dict (V : Type) := list (string * V).

Fixpoint get {V : Type} (k : string) (d : dict V) : option V :=
  match d with
  | [] => None
  | (k', v) :: d' => if String.eqb k k' then Some v else get k d'
  end.

Fixpoint set {V : Type} (k : string) (v : V) (d : dict V) : dict V :=
  match d with
  | [] => [(k, v)]
  | (k', v') :: d' =>
      if String.eqb k k' then (k', v) :: d' else (k', v') :: set k v d'
  end.

Definition keys {V : Type} (d : dict V) : list string := map fst d.

End Dict.

(** ** The analyzer *)

Module Analyzer.

Import Pandas.

(** The columns of a downloaded frame that the metrics read, and the four
    columns [calculate_metrics] adds; [None] is a column not there yet.
    The closing prices are the input: finite numbers of any sign. *)
Record DataFrame : Type := mkFrame {
  Close : list R;
  Daily_Return : option Series;
  Cumulative_Return : option Series;
  MA_50 : option Series;
  MA_200 : option Series
}.

(** A frame as the download returns it. *)
Definition raw_frame (close : list R) : DataFrame :=
  mkFrame close None None None None.

(** [data.empty] *)
Definition empty (data : DataFrame) : bool :=
  match Close data with
  | [] => true
  | _ :: _ => false
  end.

(** The record stored in [analysis_results] for one ticker. *)
Record Metrics : Type := mkMetrics {
  total_return : float;
  volatility : float;
  avg_daily_return : float;
  best_day : float;
  worst_day : float;
  current_price : float;
  start_price : float
}.

Record StockAnalyzer : Type := mkAnalyzer {
  tickers : list string;
  start_date : string;
  end_date : string;
  stock_data : Dict.dict DataFrame;
  analysis_results : Dict.dict Metrics
}.

(** [StockAnalyzer.__init__] *)
Definition init (tickers : list string) (start_date end_date : string)
  : StockAnalyzer :=
  mkAnalyzer tickers start_date end_date [] [].

Inductive exn : Type :=
| IndexError
| KeyError.

Inductive outcome (A : Type) : Type :=
| Returns (a : A)
| Raises (e : exn).

Arguments Returns {A} a.
Arguments Raises {A} e.

(** [data[column]] of a derived column; a missing column is a [KeyError]. *)
Definition column (c : option Series) : outcome Series :=
  match c with
  | Some s => Returns s
  | None => Raises KeyError
  end.

(** [s.iloc[-1]] and [s.iloc[0]] as outcomes. *)
Definition at_last {A : Type} (s : list A) : outcome A :=
  match iloc_last s with
  | Some x => Returns x
  | None => Raises IndexError
  end.

Definition at_first {A : Type} (s : list A) : outcome A :=
  match iloc_first s with
  | Some x => Returns x
  | None => Raises IndexError
  end.

Definition bind {A B : Type} (m : outcome A) (k : A -> outcome B)
  : outcome B :=
  match m with
  | Returns a => k a
  | Raises e => Raises e
  end.

Notation "x <- m ;; k" := (bind m (fun x => k))
  (at level 61, m at next level, right associativity).

(** The download of one ticker: the frame returned, or an exception. *)
Definition downloader : Type :=
  string -> string -> string -> outcome DataFrame.

(** [fetch_data]: a ticker enters [stock_data] only when its download
    returns a frame that is not empty; an exception is caught and the
    ticker skipped. *)
Definition fetch_one (download : downloader) (self : StockAnalyzer)
  (ticker : string) : StockAnalyzer :=
  match download ticker (start_date self) (end_date self) with
  | Returns data =>
      if negb (empty data)
      then mkAnalyzer (tickers self) (start_date self) (end_date self)
             (Dict.set ticker data (stock_data self))
             (analysis_results self)
      else self
  | Raises _ => self
  end.

Definition fetch_data (download : downloader) (self : StockAnalyzer)
  : StockAnalyzer :=
  fold_left (fetch_one download) (tickers self) self.

(** The four column assignments of the loop body of [calculate_metrics]. *)
Definition daily_return (close : list R) : Series :=
  map (fun x => fmul x (Fin 100)) (pct_change (map Fin close)).

Definition cumulative_return (daily : Series) : Series :=
  map (fun x => fsub x (Fin 1))
      (cumprod (map (fun x => fadd (Fin 1) (fdiv x (Fin 100))) daily)).

Definition add_columns (data : DataFrame) : DataFrame :=
  let daily := daily_return (Close data) in
  mkFrame (Close data)
          (Some daily)
          (Some (cumulative_return daily))
          (Some (rolling_mean 50 (Close data)))
          (Some (rolling_mean 200 (Close data))).

(** The dictionary literal stored in [analysis_results]; its entries are
    evaluated in the order written. *)
Definition summary (data : DataFrame) : outcome Metrics :=
  cum <- column (Cumulative_Return data) ;;
  last_cum <- at_last cum ;;
  daily <- column (Daily_Return data) ;;
  last_close <- at_last (Close data) ;;
  first_close <- at_first (Close data) ;;
  Returns (mkMetrics (fmul last_cum (Fin 100))
                     (std daily)
                     (mean daily)
                     (max daily)
                     (min daily)
                     (Fin last_close)
                     (Fin first_close)).

(** [calculate_metrics]: the loop over [stock_data.items()].  The body
    assigns only to the key it is visiting, so the items are those of the
    store on entry. *)
Fixpoint calculate_loop (items : list (string * DataFrame))
  (self : StockAnalyzer) : outcome StockAnalyzer :=
  match items with
  | [] => Returns self
  | (ticker, data) :: rest =>
      let data := add_columns data in
      let self := mkAnalyzer (tickers self) (start_date self) (end_date self)
                    (Dict.set ticker data (stock_data self))
                    (analysis_results self) in
      m <- summary data ;;
      calculate_loop rest
        (mkAnalyzer (tickers self) (start_date self) (end_date self)
           (stock_data self)
           (Dict.set ticker m (analysis_results self)))
  end.

Definition calculate_metrics (self : StockAnalyzer) : outcome StockAnalyzer :=
  calculate_loop (stock_data self) self.

(** Python's [max(items, key=...)] and [min(items, key=...)] on a sequence
    that is not empty: the first item is kept until a later one compares
    strictly greater (smaller). *)
Definition py_max {A : Type} (key : A -> float) (first : A) (rest : list A)
  : A :=
  fold_left (fun best x => if fgtb (key x) (key best) then x else best)
            rest first.

Definition py_min {A : Type} (key : A -> float) (first : A) (rest : list A)
  : A :=
  fold_left (fun best x => if fltb (key x) (key best) then x else best)
            rest first.

(** What [print_summary] reports after the per-ticker lines: nothing when
    [analysis_results] is empty. *)
Record Report : Type := mkReport {
  best_stock : string * Metrics;
  worst_stock : string * Metrics;
  most_volatile : string * Metrics
}.

Definition print_summary (self : StockAnalyzer) : option Report :=
  match analysis_results self with
  | [] => None
  | item :: items =>
      Some (mkReport
              (py_max (fun x => total_return (snd x)) item items)
              (py_min (fun x => total_return (snd x)) item items)
              (py_max (fun x => volatility (snd x)) item items))
  end.

End Analyzer.

(** ** The vocabulary of the specification

    The quantities the specification names, written from its words over the
    defined (not missing) entries of a column, to be compared with what the
    program computes. *)

Module Spec.

Import Pandas.


(** [a <= b] and [a < b] as propositions. *)
Definition fle (a b : float) : Prop := fleb a b = true.
Definition flt (a b : float) : Prop := fltb a b = true.

(** The arithmetic mean of a set of values; not computable on no value. *)
Definition arith_mean (xs : list float) : float :=
  match xs with
  | [] => NaN
  | _ :: _ => fdiv (fsum xs) (Fin (INR (length xs)))
  end.

(** The sample standard deviation, with the [N - 1] denominator; not
    computable on fewer than two values. *)
Definition sample_std (xs : list float) : float :=
  if (length xs <? 2)%nat then NaN
  else
    let m := arith_mean xs in
    fsqrt (fdiv (fsum (map (fun x => fmul (fsub x m) (fsub x m)) xs))
                (Fin (INR (length xs) - 1))).

(** [m] is the maximum (minimum) of [xs]; of no value it is not computable. *)
Definition is_max (xs : list float) (m : float) : Prop :=
  match xs with
  | [] => m = NaN
  | _ :: _ => In m xs /\ forall x, In x xs -> fle x m
  end.

Definition is_min (xs : list float) (m : float) : Prop :=
  match xs with
  | [] => m = NaN
  | _ :: _ => In m xs /\ forall x, In x xs -> fle m x
  end.

(** [close[lo] + ... + close[lo + n - 1]] *)
Fixpoint range_sum (close : list R) (lo n : nat) : R :=
  match n with
  | O => 0
  | S n' => nth lo close 0 + range_sum close (S lo) n'
  end.

(** The arithmetic mean of [close[i-w+1 .. i]]. *)
Definition window_mean (w : nat) (close : list R) (i : nat) : R :=
  range_sum close (i + 1 - w) w / INR w.

(** Every closing price is positive. *)
Definition positive_prices (close : list R) : Prop :=
  Forall (fun c => 0 < c) close.

(** Some closing price is zero or negative. *)
Definition has_nonpositive_price (close : list R) : Prop :=
  exists c, In c close /\ c <= 0.

(** [x] is the item of largest key, the first of them in the order of
    [items]: strictly above what comes before, not below what comes after. *)
Definition first_max {A : Type} (key : A -> float) (items : list A) (x : A)
  : Prop :=
  exists before after,
    items = before ++ x :: after /\
    (forall y, In y before -> flt (key y) (key x)) /\
    (forall y, In y after -> fle (key y) (key x)).

(** [x] is the item of smallest key, the first of them in the order of
    [items]. *)
Definition first_min {A : Type} (key : A -> float) (items : list A) (x : A)
  : Prop :=
  exists before after,
    items = before ++ x :: after /\
    (forall y, In y before -> flt (key x) (key y)) /\
    (forall y, In y after -> fle (key x) (key y)).

End Spec.

(** ** Auxiliary definitions for the proofs *)

Module Aux.

Import Pandas.

(** The daily returns after the first bar, from the previous close on. *)
Fixpoint returns_from (prev : R) (cs : list R) : Series :=
  match cs with
  | [] => []
  | c :: cs' =>
      fmul (fsub (fdiv (Fin c) (Fin prev)) (Fin 1)) (Fin 100)
        :: returns_from c cs'
  end.

(** The same returns as reals, for prices that are not zero. *)
Fixpoint real_returns (prev : R) (cs : list R) : list R :=
  match cs with
  | [] => []
  | c :: cs' => (c / prev - 1) * 100 :: real_returns c cs'
  end.

(** The growth factor [1 + r / 100] of a daily return. *)
Definition growth (x : float) : float := fadd (Fin 1) (fdiv x (Fin 100)).

(** The cumulative return after the first bar: the running product of the
    growth factors, missing entries counting as 1, less 1. *)
Definition cumulative_tail (acc : float) (ds : Series) : Series :=
  let s := map growth ds in
  map (fun x => fsub x (Fin 1))
      (putmask s NaN (running_prod acc (putmask s (Fin 1) s))).

(** What [fetch_data] maintains, for the download and the dates it is run
    with: the dates and the results are untouched, the keys of the store
    are distinct, and every frame in the store is the non-empty frame that
    its download returned. *)
Definition fetch_inv (download : Analyzer.downloader) (s e : string)
  (self : Analyzer.StockAnalyzer) : Prop :=
  Analyzer.start_date self = s /\
  Analyzer.end_date self = e /\
  Analyzer.analysis_results self = [] /\
  NoDup (Dict.keys (Analyzer.stock_data self)) /\
  forall t d, In (t, d) (Analyzer.stock_data self) ->
              download t s e = Analyzer.Returns d /\
              Analyzer.empty d = false.

(** No entry of the column is missing. *)
Definition no_nan (s : Series) : Prop := Forall (fun x => x <> NaN) s.

End Aux.

(** ** Example inputs *)

Module Examples.

Import Analyzer.

Local Open Scope string_scope.

(** A data source with a falling series that ends on a negative close, one
    that passes through a zero close, a rising one, one of a single bar,
    and one without bars; any other ticker makes the download raise. *)
Definition download_mixed : downloader :=
  fun ticker _ _ =>
    if String.eqb ticker "NEG" then Returns (raw_frame [100; -5])
    else if String.eqb ticker "ZERO" then Returns (raw_frame [100; 0; 50])
    else if String.eqb ticker "UP" then Returns (raw_frame [100; 110])
    else if String.eqb ticker "ONE" then Returns (raw_frame [100])
    else if String.eqb ticker "NONE" then Returns (raw_frame [])
    else Raises KeyError.

(** Results of three tickers with total returns +20, -5 and +3 percent. *)
Definition three_results : StockAnalyzer :=
  mkAnalyzer ["AAA"; "BBB"; "CCC"] "2024-01-01" "2024-12-31" []
    [("AAA", mkMetrics (Fin 20) (Fin 2) (Fin 1) (Fin 5) (Fin (-4))
               (Fin 120) (Fin 100));
     ("BBB", mkMetrics (Fin (-5)) (Fin 3) (Fin 0) (Fin 6) (Fin (-7))
               (Fin 95) (Fin 100));
     ("CCC", mkMetrics (Fin 3) (Fin 3) (Fin 0) (Fin 4) (Fin (-4))
               (Fin 103) (Fin 100))].

End Examples.

(** ** The performance listing and the charts

    The parts of [print_summary] and [generate_visualizations] that compute:
    which tickers are listed, which panel of the grid a ticker is drawn in,
    and the series handed to the plots.  The drawing itself is left out. *)

Module Charts.

Import Pandas Analyzer.

(** The blocks of the performance summary: [for ticker in self.tickers],
    [if ticker in self.analysis_results], one block with the ticker and its
    record. *)
Definition listed (self : StockAnalyzer) : list (string * Metrics) :=
  flat_map (fun ticker =>
              match Dict.get ticker (analysis_results self) with
              | Some results => [(ticker, results)]
              | None => []
              end)
           (tickers self).

(** [axes[row, col]] on the [rows] x [cols] array of axes that
    [plt.subplots(rows, cols)] returns: an index outside it is an
    [IndexError]. *)
Definition axes_at (rows cols row col : nat) : outcome (nat * nat) :=
  if ((row <? rows) && (col <? cols))%nat then Returns (row, col)
  else Raises IndexError.

(** The loop of the price chart and of the returns histogram over
    [enumerate(self.stock_data.items())]: [row = idx // 3],
    [col = idx % 3], [ax = axes[row, col]] on the 2 x 3 grid.  The result
    is the panel each ticker is drawn in. *)
Fixpoint grid_loop (idx : nat) (items : list (string * DataFrame))
  : outcome (list (string * (nat * nat))) :=
  match items with
  | [] => Returns []
  | (ticker, _) :: rest =>
      ax <- axes_at 2 3 (idx / 3) (idx mod 3) ;;
      panels <- grid_loop (S idx) rest ;;
      Returns ((ticker, ax) :: panels)
  end.

Definition price_panels (self : StockAnalyzer)
  : outcome (list (string * (nat * nat))) :=
  grid_loop 0 (stock_data self).

(** The series of the comparison chart:
    [(data['Close'] / data['Close'].iloc[0]) * 100]. *)
Definition normalized (data : DataFrame) : outcome Series :=
  first_close <- at_first (Close data) ;;
  Returns (map (fun c => fmul (fdiv (Fin c) (Fin first_close)) (Fin 100))
               (Close data)).

(** The tickers of the moving-average chart:
    [list(self.stock_data.items())[:3]]. *)
Definition ma_chart_items (self : StockAnalyzer)
  : list (string * DataFrame) :=
  firstn 3 (stock_data self).


End Charts.

(** ** Further auxiliary definitions *)

Module Aux2.

Import Pandas Analyzer.

(** The frame that [fetch_data] stores for a ticker, if any: the one its
    download returns, when it returns one that is not empty. *)
Definition fetched_frame (download : downloader) (s e ticker : string)
  : option DataFrame :=
  match download ticker s e with
  | Returns data => if negb (empty data) then Some data else None
  | Raises _ => None
  end.

(** A list of tickers without its repetitions, each kept at its first
    place. *)
Fixpoint dedup (l : list string) : list string :=
  match l with
  | [] => []
  | x :: r => x :: remove string_dec x (dedup r)
  end.

(** [calculate_metrics] applied to every frame of a store. *)
Definition with_columns (store : Dict.dict DataFrame) : Dict.dict DataFrame :=
  map (fun item => (fst item, add_columns (snd item))) store.

(** All entries of a list of reals are equal. *)
Definition all_equal (rs : list R) : Prop :=
  forall r r', In r rs -> In r' rs -> r = r'.

End Aux2.

(** ** Statistics, as the textbook has them

    The quantities of the summary written without the pandas routines: on
    the defined values of a column with the arithmetic of the model, and on
    real numbers. *)

Module Stats.

(** The entries of a column that are not the missing value. *)
Fixpoint defined_values (s : list float) : list float :=
  match s with
  | [] => []
  | NaN :: r => defined_values r
  | x :: r => x :: defined_values r
  end.

(** The sum of a list of values. *)
Fixpoint total (xs : list float) : float :=
  match xs with
  | [] => Fin 0
  | x :: r => fadd x (total r)
  end.

(** The arithmetic mean; not computable on no value. *)
Definition mean_of (xs : list float) : float :=
  match xs with
  | [] => NaN
  | _ :: _ => fdiv (total xs) (Fin (INR (length xs)))
  end.

(** The sample standard deviation, with the [N - 1] denominator; not
    computable on fewer than two values. *)
Definition std_of (xs : list float) : float :=
  match xs with
  | [] | [_] => NaN
  | _ :: _ :: _ =>
      fsqrt (fdiv (total (map (fun x => fmul (fsub x (mean_of xs))
                                             (fsub x (mean_of xs))) xs))
                  (Fin (INR (length xs) - 1)))
  end.

(** The same on real numbers. *)
Fixpoint Rtotal (xs : list R) : R :=
  match xs with
  | [] => 0
  | x :: r => x + Rtotal r
  end.

Definition average (xs : list R) : R := Rtotal xs / INR (length xs).

Definition sample_deviation (xs : list R) : R :=
  sqrt (Rtotal (map (fun x => (x - average xs) * (x - average xs)) xs)
        / (INR (length xs) - 1)).

Definition is_greatest (xs : list R) (m : R) : Prop :=
  In m xs /\ forall x, In x xs -> x <= m.

Definition is_least (xs : list R) (m : R) : Prop :=
  In m xs /\ forall x, In x xs -> m <= x.

(** The percentage changes [(close[i] - close[i-1]) / close[i-1] * 100] of
    a series of closes, for [i >= 1]. *)
Fixpoint changes_from (prev : R) (cs : list R) : list R :=
  match cs with
  | [] => []
  | c :: r => (c - prev) / prev * 100 :: changes_from c r
  end.

Definition percentage_changes (close : list R) : list R :=
  match close with
  | [] => []
  | c0 :: cs => changes_from c0 cs
  end.

End Stats.

(** ** The daily returns and their reductions on binary64 numbers

    The same pandas operations as in [Pandas], computed on the binary64
    floating-point numbers of the machine, every operation rounded to
    nearest.  [np_sum] adds from left to right, as numpy does on a column
    of fewer than eight entries; the example below has four. *)

Module Binary64.

Import PrimFloat.

Local Open Scope float_scope.

Definition Series := list float.

(** [s.shift(1)] *)
Definition shift (s : Series) : Series :=
  match s with
  | [] => []
  | _ :: _ => nan :: removelast s
  end.

Fixpoint zip_with (f : float -> float -> float) (s t : Series) : Series :=
  match s, t with
  | x :: s', y :: t' => f x y :: zip_with f s' t'
  | _, _ => []
  end.

(** [s.pct_change()]: [s / s.shift(1) - 1]. *)
Definition pct_change (s : Series) : Series :=
  map (fun q => q - 1) (zip_with div s (shift s)).

(** [data['Close'].pct_change() * 100] *)
Definition daily_return (close : Series) : Series :=
  map (fun x => x * 100) (pct_change close).

Definition putmask (s : Series) (v : float) (vals : Series) : Series :=
  zip_with (fun m x => if is_nan m then v else x) s vals.

(** The number of entries that are not missing, as a float. *)
Definition count (s : Series) : float :=
  fold_left (fun n x => if is_nan x then n else n + 1) s 0.

Definition np_sum (s : Series) : float := fold_left add s 0.

(** [s.mean()] *)
Definition mean (s : Series) : float :=
  if leb (count s) 0 then nan
  else np_sum (putmask s 0 s) / count s.

(** [nanvar] with [ddof=1] and [s.std()] *)
Definition var (s : Series) : float :=
  if leb (count s) 1 then nan
  else
    let values := putmask s 0 s in
    let avg := np_sum values / count s in
    let sqr := map (fun x => (avg - x) * (avg - x)) values in
    np_sum (putmask s 0 sqr) / (count s - 1).

Definition std (s : Series) : float := sqrt (var s).

(** [s.max()] and [s.min()] *)
Definition max (s : Series) : float :=
  if leb (count s) 0 then nan
  else
    match putmask s neg_infinity s with
    | [] => nan
    | x :: r => fold_left (fun m y => if ltb m y then y else m) r x
    end.

Definition min (s : Series) : float :=
  if leb (count s) 0 then nan
  else
    match putmask s infinity s with
    | [] => nan
    | x :: r => fold_left (fun m y => if ltb y m then y else m) r x
    end.

(** The closes 156.25, 175, 196, 219.52, each 1.12 times the one before;
    the last is the binary64 number nearest to 219.52. *)
Definition equal_growth : Series :=
  [0x1.388p+7; 0x1.5ep+7; 0x1.88p+7; 0x1.b70a3d70a3d71p+7].

End Binary64.

(** * Properties *)

Import Pandas Analyzer Spec Aux Examples Charts Aux2 Stats.

(** ** Floats: signs, arithmetic on finite values, order *)

Lemma Rsign_pos (x : R) : 0 < x -> Rsign x = Gt.
Proof.
  intros H. unfold Rsign.
  destruct (total_order_T x 0) as [[Hlt | Heq] | Hgt]; trivial; lra.
Qed.

Lemma Rsign_nonzero (x : R) : x <> 0 -> Rsign x <> Eq.
Proof.
  intros H. unfold Rsign.
  destruct (total_order_T x 0) as [[Hlt | Heq] | Hgt]; congruence.
Qed.

Lemma fdiv_fin (x y : R) : y <> 0 -> fdiv (Fin x) (Fin y) = Fin (x / y).
Proof.
  intros H. simpl. pose proof (Rsign_nonzero y H).
  destruct (Rsign y); congruence.
Qed.

Lemma fadd_zero_r (a : float) : fadd a (Fin 0) = a.
Proof. destruct a; simpl; trivial. f_equal. lra. Qed.

Lemma fleb_fin (x y : R) : fleb (Fin x) (Fin y) = true <-> x <= y.
Proof. simpl. destruct (Rle_dec x y); split; intros; trivial; congruence. Qed.

(** Case analysis on floats and on the comparisons of their finite values. *)
Ltac float_cases :=
  repeat match goal with
         | a : float |- _ => destruct a
         end;
  simpl in *;
  repeat match goal with
         | |- context [Rlt_dec ?x ?y] => destruct (Rlt_dec x y)
         | |- context [Rle_dec ?x ?y] => destruct (Rle_dec x y)
         | H : context [Rlt_dec ?x ?y] |- _ => destruct (Rlt_dec x y)
         | H : context [Rle_dec ?x ?y] |- _ => destruct (Rle_dec x y)
         end;
  try congruence; try (exfalso; lra).

Lemma fltb_fleb (a b : float) : fltb a b = true -> fleb a b = true.
Proof. intros H. float_cases. Qed.

Lemma fltb_false_fleb (a b : float) :
  a <> NaN -> b <> NaN -> fltb a b = false -> fleb b a = true.
Proof. intros Ha Hb H. float_cases. Qed.

Lemma fleb_refl (a : float) : a <> NaN -> fleb a a = true.
Proof. intros Ha. float_cases. Qed.

Lemma fleb_trans (a b c : float) :
  fleb a b = true -> fleb b c = true -> fleb a c = true.
Proof. intros H1 H2. float_cases. Qed.

Lemma fltb_trans (a b c : float) :
  fltb a b = true -> fltb b c = true -> fltb a c = true.
Proof. intros H1 H2. float_cases. Qed.

Lemma fleb_fltb_trans (a b c : float) :
  fleb a b = true -> fltb b c = true -> fltb a c = true.
Proof. intros H1 H2. float_cases. Qed.

Lemma fltb_fleb_trans (a b c : float) :
  fltb a b = true -> fleb b c = true -> fltb a c = true.
Proof. intros H1 H2. float_cases. Qed.

Lemma fleb_NInf_r (a : float) : fleb a NInf = true -> a = NInf.
Proof. intros H. float_cases. Qed.

Lemma fleb_PInf_l (a : float) : fleb PInf a = true -> a = PInf.
Proof. intros H. float_cases. Qed.

(** The square of a difference does not depend on its direction. *)
Lemma fsub_square_sym (a b : float) :
  fmul (fsub a b) (fsub a b) = fmul (fsub b a) (fsub b a).
Proof.
  destruct a, b; simpl; trivial. f_equal. ring.
Qed.

(** ** The derived columns *)

Lemma pct_tail (p : R) (cs : list R) :
  map (fun x => fmul x (Fin 100))
      (map (fun q => fsub q (Fin 1))
           (zip_with fdiv (map Fin cs) (removelast (Fin p :: map Fin cs))))
  = returns_from p cs.
Proof.
  revert p. induction cs as [| c cs IH]; intros p.
  - reflexivity.
  - cbn [map removelast zip_with returns_from].
    f_equal. apply IH.
Qed.

(** The first daily return is missing; the others compare each close with
    the one before. *)
Lemma daily_return_cons (c0 : R) (cs : list R) :
  daily_return (c0 :: cs) = NaN :: returns_from c0 cs.
Proof.
  unfold daily_return, pct_change, shift.
  cbn [map zip_with]. rewrite pct_tail. reflexivity.
Qed.

Lemma cumulative_return_cons (ds : Series) :
  cumulative_return (NaN :: ds) = NaN :: cumulative_tail (Fin 1) ds.
Proof. reflexivity. Qed.

Lemma returns_from_cons_fin (p c : R) (cs : list R) :
  p <> 0 ->
  returns_from p (c :: cs) = Fin ((c / p - 1) * 100) :: returns_from c cs.
Proof.
  intros Hp. cbn [returns_from]. rewrite fdiv_fin by assumption.
  reflexivity.
Qed.

(** With prices that are not zero every daily return after the first bar
    is finite. *)
Lemma returns_from_real (p : R) (cs : list R) :
  0 < p -> positive_prices cs ->
  returns_from p cs = map Fin (real_returns p cs).
Proof.
  revert p. induction cs as [| c cs IH]; intros p Hp Hcs.
  - reflexivity.
  - inversion Hcs as [| c' cs' Hc Hcs' ]; subst.
    rewrite returns_from_cons_fin by lra.
    cbn [real_returns map]. rewrite IH by assumption. reflexivity.
Qed.

Lemma growth_fin (r : R) : growth (Fin r) = Fin (1 + r / 100).
Proof. unfold growth. rewrite fdiv_fin by lra. reflexivity. Qed.

Lemma cumulative_tail_cons_fin (acc : float) (r : R) (ds : Series) :
  cumulative_tail acc (Fin r :: ds)
  = fsub (fmul acc (Fin (1 + r / 100))) (Fin 1)
      :: cumulative_tail (fmul acc (Fin (1 + r / 100))) ds.
Proof.
  unfold cumulative_tail. cbn [map]. rewrite growth_fin. reflexivity.
Qed.

(** Telescoping: the running product of the growth factors from [p] on,
    started at [p / c0], is [c / c0] at each later close [c]. *)
Lemma cumulative_tail_positive (c0 p : R) (cs : list R) :
  0 < c0 -> 0 < p -> positive_prices cs ->
  cumulative_tail (Fin (p / c0)) (returns_from p cs)
  = map (fun c => Fin (c / c0 - 1)) cs.
Proof.
  intros Hc0. revert p. induction cs as [| c cs IH]; intros p Hp Hcs.
  - reflexivity.
  - inversion Hcs as [| c' cs' Hc Hcs' ]; subst.
    rewrite returns_from_cons_fin by lra.
    rewrite cumulative_tail_cons_fin.
    cbn [fmul].
    replace (p / c0 * (1 + (c / p - 1) * 100 / 100)) with (c / c0)
      by (field; lra).
    rewrite IH by assumption.
    reflexivity.
Qed.

Lemma cumulative_tail_first_positive (c0 : R) (cs : list R) :
  positive_prices (c0 :: cs) ->
  cumulative_tail (Fin 1) (returns_from c0 cs)
  = map (fun c => Fin (c / c0 - 1)) cs.
Proof.
  intros H. inversion H as [| c cs' Hc0 Hcs]; subst.
  replace 1 with (c0 / c0) at 1 by (field; lra).
  apply cumulative_tail_positive; assumption.
Qed.

(** With positive prices the cumulative return is missing at the first bar
    and is the ratio to the first close, less 1, at every later bar. *)
Lemma cumulative_return_positive (c0 : R) (cs : list R) :
  positive_prices (c0 :: cs) ->
  cumulative_return (daily_return (c0 :: cs))
  = NaN :: map (fun c => Fin (c / c0 - 1)) cs.
Proof.
  intros H.
  rewrite daily_return_cons, cumulative_return_cons.
  rewrite cumulative_tail_first_positive by assumption.
  reflexivity.
Qed.

(** ** The summary record of one frame *)

Lemma iloc_last_cons {A : Type} (x : A) (s : list A) :
  iloc_last (x :: s) = Some (last s x).
Proof. reflexivity. Qed.

Lemma add_columns_eq (data : DataFrame) :
  add_columns data
  = mkFrame (Close data)
            (Some (daily_return (Close data)))
            (Some (cumulative_return (daily_return (Close data))))
            (Some (rolling_mean 50 (Close data)))
            (Some (rolling_mean 200 (Close data))).
Proof. reflexivity. Qed.

Lemma cumulative_return_shape (c0 : R) (cs : list R) :
  cumulative_return (daily_return (c0 :: cs))
  = NaN :: cumulative_tail (Fin 1) (returns_from c0 cs).
Proof. rewrite daily_return_cons. apply cumulative_return_cons. Qed.

(** On a frame with at least one bar the loop body returns a record, whose
    fields are read off the columns just added. *)
Lemma summary_add_columns (data : DataFrame) (c0 : R) (cs : list R) :
  Close data = c0 :: cs ->
  summary (add_columns data)
  = Returns (mkMetrics
               (fmul (last (cumulative_tail (Fin 1) (returns_from c0 cs)) NaN)
                     (Fin 100))
               (std (daily_return (c0 :: cs)))
               (mean (daily_return (c0 :: cs)))
               (max (daily_return (c0 :: cs)))
               (min (daily_return (c0 :: cs)))
               (Fin (last cs c0)) (Fin c0)).
Proof.
  intros HC. rewrite add_columns_eq, HC. unfold summary.
  cbn [Cumulative_Return Daily_Return Close column bind].
  rewrite cumulative_return_shape. unfold at_last, at_first.
  rewrite !iloc_last_cons. cbn [bind iloc_first]. reflexivity.
Qed.

(** A frame without bars makes the loop body raise. *)
Lemma summary_empty (data : DataFrame) :
  Close data = [] -> summary (add_columns data) = Raises IndexError.
Proof. intros HC. unfold summary, add_columns. rewrite HC. reflexivity. Qed.

(** C1, as amended: for every non-empty price series the total return of
    the summary record is 100 times the value that the [Cumulative_Return]
    column holds at the last bar; the column is a fraction, the summary
    field a percentage. *)
Theorem total_return_is_100_times_last_cumulative_return (data : DataFrame) :
  Close data <> [] ->
  exists m cum x,
    summary (add_columns data) = Returns m /\
    Cumulative_Return (add_columns data) = Some cum /\
    iloc_last cum = Some x /\
    total_return m = fmul x (Fin 100).
Proof.
  intros Hne. destruct (Close data) as [| c0 cs] eqn:HC; [congruence |].
  eexists. eexists. eexists.
  split; [exact (summary_add_columns data c0 cs HC) |].
  split; [rewrite add_columns_eq, HC; reflexivity |].
  rewrite cumulative_return_shape. split; reflexivity.
Qed.

Lemma total_return_is_100_times_last_cumulative_return_witness :
  exists m cum x,
    summary (add_columns (raw_frame [100; 110; 99])) = Returns m /\
    Cumulative_Return (add_columns (raw_frame [100; 110; 99])) = Some cum /\
    iloc_last cum = Some x /\
    total_return m = fmul x (Fin 100).
Proof.
  apply (total_return_is_100_times_last_cumulative_return
           (raw_frame [100; 110; 99])).
  simpl. discriminate.
Defined.

(** C1, as stated, fails: on the closes 100, 110 the total return is 10
    while the last bar of the [Cumulative_Return] column holds 1/10. *)
Lemma total_return_differs_from_last_cumulative_return :
  exists m cum x,
    summary (add_columns (raw_frame [100; 110])) = Returns m /\
    Cumulative_Return (add_columns (raw_frame [100; 110])) = Some cum /\
    iloc_last cum = Some x /\
    total_return m = Fin 10 /\ x = Fin (1 / 10) /\ total_return m <> x.
Proof.
  assert (Hpos : positive_prices [100; 110]) by (repeat constructor; lra).
  eexists. eexists. eexists.
  split; [exact (summary_add_columns (raw_frame [100; 110]) 100 [110] eq_refl) |].
  split; [rewrite add_columns_eq; reflexivity |].
  cbn [raw_frame Close total_return].
  rewrite (cumulative_return_positive 100 [110] Hpos).
  rewrite (cumulative_tail_first_positive 100 [110] Hpos).
  cbn [map last iloc_last fmul].
  split; [reflexivity |].
  split; [f_equal; lra |]. split; [f_equal; lra |].
  intros Heq. injection Heq as Heq. lra.
Qed.

(** C2, as amended: for every non-empty price series the cumulative return
    of the first bar is the missing value NaN, as the first daily return
    is: [cumprod] leaves a missing entry missing. *)
Theorem first_cumulative_return_is_missing (data : DataFrame) :
  Close data <> [] ->
  exists cum,
    Cumulative_Return (add_columns data) = Some cum /\
    iloc_first cum = Some NaN.
Proof.
  intros Hne. destruct (Close data) as [| c0 cs] eqn:HC; [congruence |].
  eexists. split.
  - rewrite add_columns_eq, HC. reflexivity.
  - rewrite cumulative_return_shape. reflexivity.
Qed.

Lemma first_cumulative_return_is_missing_witness :
  exists cum,
    Cumulative_Return (add_columns (raw_frame [100; 110; 99])) = Some cum /\
    iloc_first cum = Some NaN.
Proof.
  apply (first_cumulative_return_is_missing (raw_frame [100; 110; 99])).
  simpl. discriminate.
Defined.

(** C2, as stated, fails: on the closes 100, 110, 99 the cumulative return
    of the first bar is NaN, which is not 0. *)
Lemma first_cumulative_return_is_not_zero :
  exists cum x,
    Cumulative_Return (add_columns (raw_frame [100; 110; 99])) = Some cum /\
    iloc_first cum = Some x /\
    isna x = true /\ x <> Fin 0.
Proof.
  eexists. eexists.
  split; [rewrite add_columns_eq; reflexivity |].
  cbn [raw_frame Close]. rewrite cumulative_return_shape.
  split; [reflexivity |]. split; [reflexivity | discriminate].
Qed.

(** C4, as amended: for every series of exactly one bar no daily return is
    defined, and the total return, the volatility, the average, best and
    worst daily return are all the not-computable value NaN; the total
    return is not 0. *)
Theorem single_bar_metrics_not_computable (data : DataFrame) (c : R) :
  Close data = [c] ->
  exists m daily,
    summary (add_columns data) = Returns m /\
    Daily_Return (add_columns data) = Some daily /\
    dropna daily = [] /\
    total_return m = NaN /\
    volatility m = NaN /\
    avg_daily_return m = NaN /\
    best_day m = NaN /\
    worst_day m = NaN.
Proof.
  intros HC. eexists. eexists.
  split; [exact (summary_add_columns data c [] HC) |].
  split; [rewrite add_columns_eq, HC; reflexivity |].
  rewrite daily_return_cons.
  repeat split; reflexivity.
Qed.

Lemma single_bar_metrics_not_computable_witness :
  exists m daily,
    summary (add_columns (raw_frame [100])) = Returns m /\
    Daily_Return (add_columns (raw_frame [100])) = Some daily /\
    dropna daily = [] /\
    total_return m = NaN /\
    volatility m = NaN /\
    avg_daily_return m = NaN /\
    best_day m = NaN /\
    worst_day m = NaN.
Proof.
  apply (single_bar_metrics_not_computable (raw_frame [100]) 100).
  reflexivity.
Defined.

(** C4, as stated, fails: on the single close 100 the total return is NaN,
    not 0. *)
Lemma single_bar_total_return_is_not_zero :
  exists m,
    summary (add_columns (raw_frame [100])) = Returns m /\
    isna (total_return m) = true /\
    total_return m <> Fin 0.
Proof.
  eexists.
  split; [exact (summary_add_columns (raw_frame [100]) 100 [] eq_refl) |].
  split; [reflexivity | discriminate].
Qed.

(** C5, as amended: for every series of positive closes and every index
    [i >= 1], the [Cumulative_Return] column, a fraction obtained by
    compounding the daily growth factors, equals the direct ratio
    [(close[i] - close[0]) / close[0]], so that
    [close[0] * (1 + Cumulative_Return[i]) = close[i]], and 100 times it is
    the direct ratio as a percentage. *)
Theorem cumulative_return_round_trip (data : DataFrame) (i : nat) :
  positive_prices (Close data) ->
  (1 <= i < length (Close data))%nat ->
  let c0 := nth 0 (Close data) 0 in
  let ci := nth i (Close data) 0 in
  exists cum x,
    Cumulative_Return (add_columns data) = Some cum /\
    nth_error cum i = Some x /\
    x = Fin ((ci - c0) / c0) /\
    fmul (Fin c0) (fadd (Fin 1) x) = Fin ci /\
    fmul x (Fin 100) = Fin ((ci - c0) / c0 * 100).
Proof.
  intros Hpos Hi c0 ci. subst c0 ci.
  destruct (Close data) as [| c0 cs] eqn:HC; [simpl in Hi; lia |].
  destruct i as [| j]; [lia |].
  assert (Hj : (j < length cs)%nat) by (simpl in Hi; lia).
  assert (Hc0 : 0 < c0) by (inversion Hpos; assumption).
  exists (cumulative_return (daily_return (c0 :: cs))).
  exists (Fin ((nth j cs 0 - c0) / c0)).
  split; [rewrite add_columns_eq, HC; reflexivity |].
  cbn [nth].
  split.
  - rewrite cumulative_return_positive by assumption.
    cbn [nth_error]. rewrite nth_error_map.
    rewrite (nth_error_nth' cs 0 Hj). cbn [option_map].
    do 2 f_equal. field. lra.
  - split; [reflexivity |].
    cbn [fadd fmul]. split; [f_equal; field; lra | reflexivity].
Qed.

Lemma cumulative_return_round_trip_witness :
  exists cum x,
    Cumulative_Return (add_columns (raw_frame [100; 110; 99])) = Some cum /\
    nth_error cum 2 = Some x /\
    x = Fin ((99 - 100) / 100) /\
    fmul (Fin 100) (fadd (Fin 1) x) = Fin 99 /\
    fmul x (Fin 100) = Fin ((99 - 100) / 100 * 100).
Proof.
  apply (cumulative_return_round_trip (raw_frame [100; 110; 99]) 2).
  - repeat constructor; simpl; lra.
  - simpl. lia.
Defined.

(** C5, as stated, fails on the closes 100, 110.  At index 0 the
    cumulative return is NaN, and so is the close rebuilt from it; at
    index 1 the column holds the fraction 1/10, and reading it as a
    percentage rebuilds 100.1 instead of 110. *)
Lemma round_trip_fails_on_stored_column :
  exists cum x0 x1,
    Cumulative_Return (add_columns (raw_frame [100; 110])) = Some cum /\
    nth_error cum 0 = Some x0 /\
    nth_error cum 1 = Some x1 /\
    fmul (Fin 100) (fadd (Fin 1) (fdiv x0 (Fin 100))) = NaN /\
    fmul (Fin 100) (fadd (Fin 1) (fdiv x0 (Fin 100))) <> Fin 100 /\
    fmul (Fin 100) (fadd (Fin 1) (fdiv x1 (Fin 100))) = Fin (1001 / 10) /\
    fmul (Fin 100) (fadd (Fin 1) (fdiv x1 (Fin 100))) <> Fin 110.
Proof.
  assert (Hpos : positive_prices [100; 110]) by (repeat constructor; lra).
  eexists. eexists. eexists.
  split; [rewrite add_columns_eq; reflexivity |].
  cbn [raw_frame Close].
  rewrite (cumulative_return_positive 100 [110] Hpos).
  cbn [map nth_error].
  split; [reflexivity |]. split; [reflexivity |].
  split; [reflexivity |]. split; [discriminate |].
  rewrite fdiv_fin by lra. cbn [fadd fmul].
  split; [f_equal; lra |].
  intros Heq. injection Heq as Heq. lra.
Qed.

(** ** Moving averages *)

Lemma skipn_nth_cons (s : list R) (lo : nat) :
  (lo < length s)%nat -> skipn lo s = nth lo s 0 :: skipn (S lo) s.
Proof.
  revert lo. induction s as [| x s IH]; intros lo Hlo; simpl in Hlo.
  - lia.
  - destruct lo as [| lo]; [reflexivity |].
    cbn [skipn nth]. rewrite IH by lia. reflexivity.
Qed.

Lemma Rsum_slice (s : list R) (lo n : nat) :
  (lo + n <= length s)%nat ->
  Rsum (firstn n (skipn lo s)) = range_sum s lo n.
Proof.
  revert lo. induction n as [| n IH]; intros lo Hlen.
  - reflexivity.
  - rewrite skipn_nth_cons by lia.
    cbn [firstn Rsum fold_right range_sum]. f_equal.
    apply IH. lia.
Qed.

Lemma window_length (w i : nat) (s : list R) :
  (i < length s)%nat -> length (window w i s) = Nat.min w (i + 1).
Proof.
  intros Hi. unfold window. rewrite length_firstn, length_skipn. lia.
Qed.

Lemma window_full (w i : nat) (s : list R) :
  (i < length s)%nat -> (w <= i + 1)%nat ->
  window w i s = firstn w (skipn (i + 1 - w) s).
Proof.
  intros Hi Hw. unfold window. f_equal. lia.
Qed.

(** The entry of a rolling mean at a valid index. *)
Lemma rolling_mean_nth (w i : nat) (s : list R) :
  (i < length s)%nat ->
  nth_error (rolling_mean w s) i
  = Some (if (w <=? i + 1)%nat then Fin (window_mean w s i) else NaN).
Proof.
  intros Hi. unfold rolling_mean.
  rewrite nth_error_map.
  assert (Hseq : nth_error (seq 0 (length s)) i = Some i).
  { rewrite (nth_error_nth' _ 0%nat) by (rewrite length_seq; lia).
    rewrite seq_nth by lia. reflexivity. }
  rewrite Hseq. cbn [option_map]. f_equal.
  rewrite window_length by assumption.
  destruct (Nat.leb_spec w (i + 1)) as [Hle | Hgt].
  - replace (Nat.min w (i + 1)) with w by lia.
    rewrite Nat.leb_refl. f_equal. unfold window_mean. f_equal.
    rewrite window_full by assumption.
    apply Rsum_slice. lia.
  - replace (Nat.min w (i + 1)) with (i + 1)%nat by lia.
    destruct (Nat.leb_spec w (i + 1)); [lia | reflexivity].
Qed.

Lemma rolling_mean_length (w : nat) (s : list R) :
  length (rolling_mean w s) = length s.
Proof. unfold rolling_mean. rewrite length_map, length_seq. reflexivity. Qed.



(** ** Reductions of a column: the masked computation and the defined
    values *)

Lemma putmask_cons (x y v : float) (s t : Series) :
  putmask (x :: s) v (y :: t) = (if isna x then v else y) :: putmask s v t.
Proof. reflexivity. Qed.

Lemma fold_fadd_putmask (s : Series) (acc : float) :
  fold_left fadd (putmask s (Fin 0) s) acc = fold_left fadd (dropna s) acc.
Proof.
  revert acc. induction s as [| x s IH]; intros acc.
  - reflexivity.
  - rewrite putmask_cons. cbn [fold_left dropna filter].
    destruct x; cbn [isna negb fold_left]; try apply IH.
    rewrite fadd_zero_r. apply IH.
Qed.

Lemma fold_fadd_putmask_map (f : float -> float) (s : Series) (acc : float) :
  fold_left fadd (putmask s (Fin 0) (map f (putmask s (Fin 0) s))) acc
  = fold_left fadd (map f (dropna s)) acc.
Proof.
  revert acc. induction s as [| x s IH]; intros acc.
  - reflexivity.
  - rewrite putmask_cons. cbn [map]. rewrite putmask_cons.
    cbn [fold_left dropna filter].
    destruct x; cbn [isna negb fold_left map]; try apply IH.
    rewrite fadd_zero_r. apply IH.
Qed.

(** [s.mean()] is the arithmetic mean of the defined values. *)
Lemma mean_defined_values (s : Series) : mean s = arith_mean (dropna s).
Proof.
  unfold mean, arith_mean, count, fsum. rewrite fold_fadd_putmask.
  destruct (dropna s); reflexivity.
Qed.

(** [s.std()] is the sample standard deviation of the defined values. *)
Lemma std_defined_values (s : Series) : std s = sample_std (dropna s).
Proof.
  unfold std, var, sample_std, count, fsum.
  rewrite fold_fadd_putmask_map, fold_fadd_putmask.
  destruct (dropna s) as [| x [| y xs]] eqn:Hd; try reflexivity.
  cbn [length Nat.leb Nat.ltb]. unfold arith_mean, fsum.
  do 3 f_equal. apply map_ext. intros a. apply fsub_square_sym.
Qed.

Lemma in_putmask (s : Series) (v z : float) :
  In z (putmask s v s) -> z = v \/ In z (dropna s).
Proof.
  induction s as [| x s IH]; [intros [] |].
  rewrite putmask_cons. cbn [dropna filter].
  intros [<- | Hz].
  - destruct x; cbn [isna negb]; auto using in_eq.
  - destruct (IH Hz) as [H | H]; auto.
    right. destruct (negb (isna x)); auto using in_cons.
Qed.

Lemma in_dropna_putmask (s : Series) (v z : float) :
  In z (dropna s) -> In z (putmask s v s).
Proof.
  induction s as [| x s IH]; [intros [] |].
  rewrite putmask_cons. cbn [dropna filter].
  destruct x; cbn [isna negb]; intros Hz;
    try (destruct Hz as [Hz | Hz]; [left; exact Hz | right; auto]).
  right. auto.
Qed.

Lemma in_dropna_defined (s : Series) (z : float) :
  In z (dropna s) -> z <> NaN.
Proof.
  unfold dropna. rewrite filter_In. intros [_ H] ->. discriminate.
Qed.

Lemma putmask_no_nan (s : Series) (v : float) :
  v <> NaN -> no_nan (putmask s v s).
Proof.
  intros Hv. apply Forall_forall. intros z Hz.
  destruct (in_putmask s v z Hz) as [-> | H]; trivial.
  eapply in_dropna_defined; eassumption.
Qed.

(** The running maximum ends on an entry that no entry exceeds. *)
Lemma np_max_fold (l : Series) (x : float) :
  no_nan (x :: l) ->
  let r := fold_left (fun m y => if fltb m y then y else m) l x in
  In r (x :: l) /\ forall y, In y (x :: l) -> fleb y r = true.
Proof.
  revert x. induction l as [| y l IH]; intros x Hn.
  - inversion Hn; subst. cbn. split; [auto |].
    intros z [<- | []]. apply fleb_refl. assumption.
  - inversion Hn as [| ? ? Hx Hn']; subst.
    inversion Hn' as [| ? ? Hy Hl]; subst.
    cbn [fold_left].
    destruct (fltb x y) eqn:Hxy.
    + destruct (IH y Hn') as [Hin Hle]. split.
      * right. exact Hin.
      * intros z [<- | Hz]; [| auto].
        apply fleb_trans with y; [apply fltb_fleb; assumption |].
        apply Hle. left. reflexivity.
    + assert (Hn'' : no_nan (x :: l)) by (constructor; assumption).
      destruct (IH x Hn'') as [Hin Hle]. split.
      * destruct Hin as [<- | Hin]; [left; reflexivity | right; right; exact Hin].
      * intros z [<- | [<- | Hz]].
        -- apply Hle. left. reflexivity.
        -- apply fleb_trans with x; [apply fltb_false_fleb; assumption |].
           apply Hle. left. reflexivity.
        -- apply Hle. right. exact Hz.
Qed.

(** The running minimum ends on an entry that exceeds no entry. *)
Lemma np_min_fold (l : Series) (x : float) :
  no_nan (x :: l) ->
  let r := fold_left (fun m y => if fltb y m then y else m) l x in
  In r (x :: l) /\ forall y, In y (x :: l) -> fleb r y = true.
Proof.
  revert x. induction l as [| y l IH]; intros x Hn.
  - inversion Hn; subst. cbn. split; [auto |].
    intros z [<- | []]. apply fleb_refl. assumption.
  - inversion Hn as [| ? ? Hx Hn']; subst.
    inversion Hn' as [| ? ? Hy Hl]; subst.
    cbn [fold_left].
    destruct (fltb y x) eqn:Hxy.
    + destruct (IH y Hn') as [Hin Hle]. split.
      * right. exact Hin.
      * intros z [<- | Hz]; [| auto].
        apply fleb_trans with y; [| apply fltb_fleb; assumption].
        apply Hle. left. reflexivity.
    + assert (Hn'' : no_nan (x :: l)) by (constructor; assumption).
      destruct (IH x Hn'') as [Hin Hle]. split.
      * destruct Hin as [<- | Hin]; [left; reflexivity | right; right; exact Hin].
      * intros z [<- | [<- | Hz]].
        -- apply Hle. left. reflexivity.
        -- apply fleb_trans with x; [| apply fltb_false_fleb; assumption].
           apply Hle. left. reflexivity.
        -- apply Hle. right. exact Hz.
Qed.

Lemma putmask_self_nil (s : Series) (v : float) :
  putmask s v s = [] -> s = [].
Proof. destruct s; [reflexivity | rewrite putmask_cons; discriminate]. Qed.

(** [s.max()] is the maximum of the defined values. *)
Lemma max_defined_values (s : Series) : is_max (dropna s) (max s).
Proof.
  unfold max, count, is_max.
  destruct (dropna s) as [| d ds] eqn:Hd; [reflexivity |].
  cbn [length]. unfold np_max.
  destruct (putmask s NInf s) as [| x l] eqn:Hp.
  - apply putmask_self_nil in Hp. subst s. discriminate.
  - assert (Hn : no_nan (x :: l))
      by (rewrite <- Hp; apply putmask_no_nan; discriminate).
    destruct (np_max_fold l x Hn) as [Hin Hle].
    set (r := fold_left (fun m y => if fltb m y then y else m) l x) in *.
    assert (Hd0 : fleb d r = true).
    { apply Hle. rewrite <- Hp. apply in_dropna_putmask.
      rewrite Hd. left. reflexivity. }
    split.
    + rewrite <- Hp in Hin. apply in_putmask in Hin.
      destruct Hin as [Hr | Hin]; [| rewrite <- Hd; exact Hin].
      rewrite Hr in Hd0. apply fleb_NInf_r in Hd0.
      left. congruence.
    + intros z Hz. apply Hle. rewrite <- Hp. apply in_dropna_putmask.
      rewrite Hd. exact Hz.
Qed.

(** [s.min()] is the minimum of the defined values. *)
Lemma min_defined_values (s : Series) : is_min (dropna s) (min s).
Proof.
  unfold min, count, is_min.
  destruct (dropna s) as [| d ds] eqn:Hd; [reflexivity |].
  cbn [length]. unfold np_min.
  destruct (putmask s PInf s) as [| x l] eqn:Hp.
  - apply putmask_self_nil in Hp. subst s. discriminate.
  - assert (Hn : no_nan (x :: l))
      by (rewrite <- Hp; apply putmask_no_nan; discriminate).
    destruct (np_min_fold l x Hn) as [Hin Hle].
    set (r := fold_left (fun m y => if fltb y m then y else m) l x) in *.
    assert (Hd0 : fleb r d = true).
    { apply Hle. rewrite <- Hp. apply in_dropna_putmask.
      rewrite Hd. left. reflexivity. }
    split.
    + rewrite <- Hp in Hin. apply in_putmask in Hin.
      destruct Hin as [Hr | Hin]; [| rewrite <- Hd; exact Hin].
      rewrite Hr in Hd0. apply fleb_PInf_l in Hd0.
      left. congruence.
    + intros z Hz. apply Hle. rewrite <- Hp. apply in_dropna_putmask.
      rewrite Hd. exact Hz.
Qed.

Lemma last_cons_default (c0 d : R) (cs : list R) :
  last (c0 :: cs) d = last cs c0.
Proof.
  revert c0 d. induction cs as [| c cs IH]; intros c0 d; [reflexivity |].
  change (last (c0 :: c :: cs) d) with (last (c :: cs) d).
  rewrite (IH c d), (IH c c0). reflexivity.
Qed.

(** ** Finite daily returns: the mean between the extremes *)

Lemma dropna_map_fin (rs : list R) : dropna (map Fin rs) = map Fin rs.
Proof.
  induction rs as [| r rs IH]; [reflexivity |].
  cbn [map dropna filter isna negb]. f_equal. exact IH.
Qed.

Lemma fold_fadd_map_fin (rs : list R) (a : R) :
  fold_left fadd (map Fin rs) (Fin a) = Fin (fold_left Rplus rs a).
Proof.
  revert a. induction rs as [| r rs IH]; intros a; [reflexivity |].
  cbn [map fold_left fadd]. apply IH.
Qed.

Lemma fold_Rplus_upper (rs : list R) (a M : R) :
  (forall r, In r rs -> r <= M) ->
  fold_left Rplus rs a <= a + INR (length rs) * M.
Proof.
  revert a. induction rs as [| r rs IH]; intros a HM.
  - simpl. lra.
  - cbn [fold_left]. rewrite IH by (intros; apply HM; right; assumption).
    change (length (r :: rs)) with (S (length rs)). rewrite S_INR.
    pose proof (HM r (in_eq r rs)). lra.
Qed.

Lemma fold_Rplus_lower (rs : list R) (a M : R) :
  (forall r, In r rs -> M <= r) ->
  a + INR (length rs) * M <= fold_left Rplus rs a.
Proof.
  revert a. induction rs as [| r rs IH]; intros a HM.
  - simpl. lra.
  - cbn [fold_left]. rewrite <- IH by (intros; apply HM; right; assumption).
    change (length (r :: rs)) with (S (length rs)). rewrite S_INR.
    pose proof (HM r (in_eq r rs)). lra.
Qed.

Lemma arith_mean_map_fin (r : R) (rs : list R) :
  arith_mean (map Fin (r :: rs))
  = Fin (fold_left Rplus (r :: rs) 0 / INR (length (r :: rs))).
Proof.
  unfold arith_mean. cbn [map].
  change (Fin r :: map Fin rs) with (map Fin (r :: rs)).
  unfold fsum. rewrite fold_fadd_map_fin, length_map.
  apply fdiv_fin.
  change (length (r :: rs)) with (S (length rs)).
  apply not_0_INR. discriminate.
Qed.

Lemma div_le_of_le_mul (s n M : R) : 0 < n -> s <= n * M -> s / n <= M.
Proof.
  intros Hn Hs. replace M with (n * M / n) by (field; lra).
  unfold Rdiv. apply Rmult_le_compat_r; [| exact Hs].
  left. apply Rinv_0_lt_compat. exact Hn.
Qed.

Lemma le_div_of_mul_le (s n M : R) : 0 < n -> n * M <= s -> M <= s / n.
Proof.
  intros Hn Hs. replace M with (n * M / n) by (field; lra).
  unfold Rdiv. apply Rmult_le_compat_r; [| exact Hs].
  left. apply Rinv_0_lt_compat. exact Hn.
Qed.

(** C10, as amended: under exact arithmetic, for every series of at least
    two bars with positive closes the average daily return lies between
    the worst and the best day. *)
Theorem mean_between_worst_and_best_day (data : DataFrame) :
  (2 <= length (Close data))%nat ->
  positive_prices (Close data) ->
  exists m,
    summary (add_columns data) = Returns m /\
    fle (worst_day m) (avg_daily_return m) /\
    fle (avg_daily_return m) (best_day m).
Proof.
  intros Hlen Hpos.
  destruct (Close data) as [| c0 [| c1 cs]] eqn:HC;
    [simpl in Hlen; lia | simpl in Hlen; lia |].
  eexists. split; [exact (summary_add_columns data c0 (c1 :: cs) HC) |].
  cbn [avg_daily_return best_day worst_day].
  inversion Hpos as [| ? ? Hc0 Htail]; subst.
  pose proof (max_defined_values (daily_return (c0 :: c1 :: cs))) as Hmax.
  pose proof (min_defined_values (daily_return (c0 :: c1 :: cs))) as Hmin.
  rewrite mean_defined_values.
  rewrite daily_return_cons in *.
  rewrite returns_from_real in * by assumption.
  destruct (real_returns c0 (c1 :: cs)) as [| r rs] eqn:Hr;
    [discriminate |].
  change (dropna (NaN :: map Fin (r :: rs))) with (dropna (map Fin (r :: rs)))
    in *.
  rewrite dropna_map_fin in *.
  rewrite arith_mean_map_fin.
  assert (Hn : 0 < INR (length (r :: rs))) by (apply lt_0_INR; simpl; lia).
  unfold fle. split.
  - destruct Hmin as [Hin Hle]. apply in_map_iff in Hin.
    destruct Hin as (lo & Hlo & _). rewrite <- Hlo in *.
    apply fleb_fin. apply le_div_of_mul_le; [exact Hn |].
    pose proof (fold_Rplus_lower (r :: rs) 0 lo) as Hb.
    rewrite Rplus_0_l in Hb. apply Hb.
    intros x Hx. apply fleb_fin. apply Hle. apply in_map. exact Hx.
  - destruct Hmax as [Hin Hle]. apply in_map_iff in Hin.
    destruct Hin as (hi & Hhi & _). rewrite <- Hhi in *.
    apply fleb_fin. apply div_le_of_le_mul; [exact Hn |].
    pose proof (fold_Rplus_upper (r :: rs) 0 hi) as Hb.
    rewrite Rplus_0_l in Hb. apply Hb.
    intros x Hx. apply fleb_fin. apply Hle. apply in_map. exact Hx.
Qed.

Lemma mean_between_worst_and_best_day_witness :
  exists m,
    summary (add_columns (raw_frame [100; 110; 99])) = Returns m /\
    fle (worst_day m) (avg_daily_return m) /\
    fle (avg_daily_return m) (best_day m).
Proof.
  apply (mean_between_worst_and_best_day (raw_frame [100; 110; 99])).
  - simpl. lia.
  - repeat constructor; simpl; lra.
Defined.

(** ** Dictionaries *)

Lemma get_set_same {V : Type} (k : string) (v : V) (d : Dict.dict V) :
  Dict.get k (Dict.set k v d) = Some v.
Proof.
  induction d as [| [k' v'] d IH]; cbn [Dict.set Dict.get].
  - rewrite String.eqb_refl. reflexivity.
  - destruct (String.eqb k k') eqn:E; cbn [Dict.get]; rewrite E; auto.
Qed.

Lemma get_set_other {V : Type} (k k' : string) (v : V) (d : Dict.dict V) :
  k <> k' -> Dict.get k (Dict.set k' v d) = Dict.get k d.
Proof.
  intros Hne. induction d as [| [k0 v0] d IH]; cbn [Dict.set Dict.get].
  - apply String.eqb_neq in Hne. rewrite Hne. reflexivity.
  - destruct (String.eqb k' k0) eqn:E; cbn [Dict.get].
    + apply String.eqb_eq in E. subst k0.
      apply String.eqb_neq in Hne. rewrite Hne. reflexivity.
    + rewrite IH. reflexivity.
Qed.

Lemma get_none_iff {V : Type} (k : string) (d : Dict.dict V) :
  Dict.get k d = None <-> ~ In k (Dict.keys d).
Proof.
  induction d as [| [k' v'] d IH]; cbn [Dict.get Dict.keys map fst In].
  - tauto.
  - destruct (String.eqb k k') eqn:E.
    + apply String.eqb_eq in E. split; [discriminate |].
      intros H. exfalso. apply H. left. congruence.
    + apply String.eqb_neq in E. unfold Dict.keys in IH. rewrite IH.
      split.
      * intros H [H' | H']; [congruence | contradiction].
      * intros H H'. apply H. right. exact H'.
Qed.

Lemma get_in {V : Type} (k : string) (v : V) (d : Dict.dict V) :
  Dict.get k d = Some v -> In (k, v) d.
Proof.
  induction d as [| [k' v'] d IH]; cbn [Dict.get]; [discriminate |].
  destruct (String.eqb k k') eqn:E.
  - apply String.eqb_eq in E. intros [= ->]. left. congruence.
  - intros H. right. auto.
Qed.

Lemma in_set {V : Type} (k k' : string) (v v' : V) (d : Dict.dict V) :
  In (k, v) (Dict.set k' v' d) -> (k = k' /\ v = v') \/ In (k, v) d.
Proof.
  induction d as [| [k0 v0] d IH]; cbn [Dict.set].
  - intros [[= <- <-] | []]. left. auto.
  - destruct (String.eqb k' k0) eqn:E.
    + apply String.eqb_eq in E. subst k0.
      intros [[= <- <-] | H]; [left; auto | right; right; exact H].
    + intros [H | H]; [right; left; exact H |].
      destruct (IH H) as [H' | H']; [left; exact H' | right; right; exact H'].
Qed.

Lemma keys_set {V : Type} (k : string) (v : V) (d : Dict.dict V) :
  Dict.keys (Dict.set k v d)
  = if in_dec string_dec k (Dict.keys d) then Dict.keys d
    else Dict.keys d ++ [k].
Proof.
  induction d as [| [k0 v0] d IH]; cbn [Dict.set].
  - destruct (in_dec string_dec k (Dict.keys [])) as [[] | _]. reflexivity.
  - destruct (String.eqb k k0) eqn:E.
    + apply String.eqb_eq in E. subst k0.
      destruct (in_dec string_dec k (Dict.keys ((k, v0) :: d))) as [_ | Hn];
        [reflexivity |].
      exfalso. apply Hn. left. reflexivity.
    + apply String.eqb_neq in E.
      change (Dict.keys ((k0, v0) :: Dict.set k v d))
        with (k0 :: Dict.keys (Dict.set k v d)).
      rewrite IH.
      change (Dict.keys ((k0, v0) :: d)) with (k0 :: Dict.keys d).
      destruct (in_dec string_dec k (Dict.keys d)) as [Hin | Hn];
        destruct (in_dec string_dec k (k0 :: Dict.keys d)) as [Hin' | Hn'];
        try reflexivity.
      * exfalso. apply Hn'. right. exact Hin.
      * exfalso. destruct Hin' as [H | H]; [congruence | contradiction].
Qed.

Lemma nodup_keys_set {V : Type} (k : string) (v : V) (d : Dict.dict V) :
  NoDup (Dict.keys d) -> NoDup (Dict.keys (Dict.set k v d)).
Proof.
  intros Hnd. rewrite keys_set.
  destruct (in_dec string_dec k (Dict.keys d)) as [Hin | Hn]; [exact Hnd |].
  apply NoDup_app; [exact Hnd | repeat constructor; intros [] | ].
  intros x Hx [<- | []]. contradiction.
Qed.

(** ** The two loops *)

Section Fetch.

Variable download : downloader.
Variables s e : string.

Lemma fetch_one_inv (self : StockAnalyzer) (ticker : string) :
  fetch_inv download s e self ->
  fetch_inv download s e (fetch_one download self ticker).
Proof.
  intros Hinv. pose proof Hinv as (Hs & He & Hr & Hnd & Hst).
  unfold fetch_one. rewrite Hs, He.
  destruct (download ticker s e) as [data | ex] eqn:Hd; [| exact Hinv].
  destruct (empty data) eqn:Hempty; cbn [negb]; [exact Hinv |].
  unfold fetch_inv. cbn [start_date end_date analysis_results stock_data].
  split; [reflexivity |]. split; [reflexivity |]. split; [exact Hr |].
  split; [apply nodup_keys_set; exact Hnd |].
  intros t d H. apply in_set in H.
  destruct H as [[-> ->] | H]; [split; assumption | apply (Hst _ _ H)].
Qed.

Lemma fetch_fold_inv (ts : list string) (self : StockAnalyzer) :
  fetch_inv download s e self ->
  fetch_inv download s e (fold_left (fetch_one download) ts self).
Proof.
  revert self. induction ts as [| t ts IH]; intros self H; [exact H |].
  cbn [fold_left]. apply IH. apply fetch_one_inv. exact H.
Qed.

Lemma fetch_data_inv (ts : list string) :
  fetch_inv download s e (fetch_data download (init ts s e)).
Proof.
  unfold fetch_data. apply fetch_fold_inv.
  unfold fetch_inv, init.
  cbn [start_date end_date analysis_results stock_data Dict.keys map].
  split; [reflexivity |]. split; [reflexivity |]. split; [reflexivity |].
  split; [constructor | intros t d []].
Qed.

End Fetch.

Lemma empty_false_close (d : DataFrame) : empty d = false -> Close d <> [].
Proof. unfold empty. destruct (Close d); discriminate. Qed.

(** On frames that all have a bar the loop of [calculate_metrics] returns. *)
Lemma calculate_loop_returns (items : list (string * DataFrame))
  (self : StockAnalyzer) :
  (forall t d, In (t, d) items -> Close d <> []) ->
  exists self', calculate_loop items self = Returns self'.
Proof.
  revert self. induction items as [| [t d] items IH]; intros self Hne.
  - exists self. reflexivity.
  - assert (Hd : Close d <> []) by (apply (Hne t); left; reflexivity).
    destruct (Close d) as [| c0 cs] eqn:HC; [congruence |].
    cbn [calculate_loop].
    rewrite (summary_add_columns d c0 cs HC). cbn [bind].
    apply IH. intros t' d' H. apply (Hne t'). right. exact H.
Qed.

(** The loop leaves alone the record of a ticker it does not visit. *)
Lemma calculate_loop_keeps (t : string) (items : list (string * DataFrame))
  (self self' : StockAnalyzer) :
  ~ In t (Dict.keys items) ->
  calculate_loop items self = Returns self' ->
  Dict.get t (analysis_results self') = Dict.get t (analysis_results self).
Proof.
  revert self. induction items as [| [t1 d1] items IH]; intros self Hn Hr.
  - injection Hr as <-. reflexivity.
  - cbn [calculate_loop] in Hr.
    destruct (summary (add_columns d1)) as [m1 | ex]; cbn [bind] in Hr;
      [| discriminate].
    rewrite (IH _ (fun H => Hn (or_intror H)) Hr).
    cbn [analysis_results]. apply get_set_other.
    intros ->. apply Hn. left. reflexivity.
Qed.

(** With distinct keys the record of each ticker is the summary of its own
    frame. *)
Lemma calculate_loop_records (items : list (string * DataFrame))
  (self self' : StockAnalyzer) :
  NoDup (Dict.keys items) ->
  calculate_loop items self = Returns self' ->
  forall t d, In (t, d) items ->
              exists m, summary (add_columns d) = Returns m /\
                        Dict.get t (analysis_results self') = Some m.
Proof.
  revert self. induction items as [| [t0 d0] items IH];
    intros self Hnd Hret t d Hin; [contradiction |].
  cbn [calculate_loop] in Hret.
  destruct (summary (add_columns d0)) as [m0 | ex] eqn:Hs0;
    cbn [bind] in Hret; [| discriminate].
  change (Dict.keys ((t0, d0) :: items)) with (t0 :: Dict.keys items) in Hnd.
  inversion Hnd as [| ? ? Hnotin Hnd']; subst.
  destruct Hin as [[= -> ->] | Hin].
  - exists m0. split; [exact Hs0 |].
    rewrite (calculate_loop_keeps _ _ _ _ Hnotin Hret).
    cbn [analysis_results]. apply get_set_same.
  - eapply IH; eassumption.
Qed.

(** The loop appends the records in the order of the items it visits. *)
Lemma calculate_loop_keys (items : list (string * DataFrame))
  (self self' : StockAnalyzer) :
  NoDup (Dict.keys items) ->
  (forall t, In t (Dict.keys items) ->
             ~ In t (Dict.keys (analysis_results self))) ->
  calculate_loop items self = Returns self' ->
  Dict.keys (analysis_results self')
  = Dict.keys (analysis_results self) ++ Dict.keys items.
Proof.
  revert self. induction items as [| [t0 d0] items IH];
    intros self Hnd Hfresh Hret.
  - injection Hret as <-. cbn [Dict.keys map]. rewrite app_nil_r. reflexivity.
  - cbn [calculate_loop] in Hret.
    destruct (summary (add_columns d0)) as [m0 | ex]; cbn [bind] in Hret;
      [| discriminate].
    change (Dict.keys ((t0, d0) :: items)) with (t0 :: Dict.keys items) in *.
    inversion Hnd as [| ? ? Hnotin Hnd']; subst.
    assert (Hkeys : Dict.keys (Dict.set t0 m0 (analysis_results self))
                    = Dict.keys (analysis_results self) ++ [t0]).
    { rewrite keys_set.
      destruct (in_dec string_dec t0 (Dict.keys (analysis_results self)))
        as [Hin | _]; [| reflexivity].
      exfalso. apply (Hfresh t0); [left; reflexivity | exact Hin]. }
    rewrite (IH _ Hnd') with (2 := Hret).
    + cbn [analysis_results]. rewrite Hkeys, <- app_assoc. reflexivity.
    + cbn [analysis_results]. rewrite Hkeys. intros t Ht Hin.
      apply in_app_or in Hin. destruct Hin as [Hin | [<- | []]].
      * apply (Hfresh t); [right; exact Ht | exact Hin].
      * contradiction.
Qed.

(** After [fetch_data], [calculate_metrics] returns, and the results hold
    exactly one record for each ticker of the store, the summary of its
    frame, in the order of the store. *)
Lemma calculate_after_fetch (download : downloader) (ts : list string)
  (s e : string) :
  exists self',
    calculate_metrics (fetch_data download (init ts s e)) = Returns self' /\
    (forall t d,
        In (t, d) (stock_data (fetch_data download (init ts s e))) ->
        exists m, summary (add_columns d) = Returns m /\
                  Dict.get t (analysis_results self') = Some m) /\
    (forall t,
        ~ In t (Dict.keys (stock_data (fetch_data download (init ts s e)))) ->
        Dict.get t (analysis_results self') = None) /\
    Dict.keys (analysis_results self')
    = Dict.keys (stock_data (fetch_data download (init ts s e))).
Proof.
  destruct (fetch_data_inv download s e ts) as (_ & _ & Hr & Hnd & Hst).
  set (fetched := fetch_data download (init ts s e)) in *.
  destruct (calculate_loop_returns (stock_data fetched) fetched)
    as [self' Hret].
  { intros t d H. apply empty_false_close. apply (Hst t d H). }
  exists self'. split; [exact Hret |]. split; [| split].
  - apply (calculate_loop_records _ _ _ Hnd Hret).
  - intros t Hn.
    rewrite (calculate_loop_keeps _ _ _ _ Hn Hret), Hr. reflexivity.
  - rewrite (calculate_loop_keys _ _ _ Hnd) with (2 := Hret).
    + rewrite Hr. reflexivity.
    + rewrite Hr. intros t _ [].
Qed.

(** ** Best and worst performers *)

Section Extremes.

Context {A : Type}.
Variable key : A -> float.

Lemma py_max_fold (rest before after : list A) (x : A) :
  (forall y, In y before -> flt (key y) (key x)) ->
  (forall y, In y after -> fle (key y) (key x)) ->
  key x <> NaN ->
  (forall y, In y rest -> key y <> NaN) ->
  first_max key (before ++ x :: after ++ rest) (py_max key x rest).
Proof.
  revert before after x.
  induction rest as [| y rest IH]; intros before after x Hb Ha Hx Hr.
  - exists before, after. rewrite app_nil_r. auto.
  - assert (Hy : key y <> NaN) by (apply Hr; left; reflexivity).
    assert (Hr' : forall z, In z rest -> key z <> NaN)
      by (intros z Hz; apply Hr; right; exact Hz).
    unfold py_max. cbn [fold_left]. unfold fgtb.
    destruct (fltb (key x) (key y)) eqn:Hxy.
    + replace (before ++ x :: after ++ y :: rest)
        with ((before ++ x :: after) ++ y :: [] ++ rest)
        by (rewrite <- app_assoc; reflexivity).
      apply IH; trivial; [| intros z []].
      intros z Hz. apply in_app_or in Hz. unfold flt.
      destruct Hz as [Hz | [<- | Hz]].
      * apply fltb_trans with (key x); [apply Hb; exact Hz | exact Hxy].
      * exact Hxy.
      * apply fleb_fltb_trans with (key x); [apply Ha; exact Hz | exact Hxy].
    + replace (before ++ x :: after ++ y :: rest)
        with (before ++ x :: (after ++ [y]) ++ rest)
        by (rewrite <- app_assoc; reflexivity).
      apply IH; trivial.
      intros z Hz. apply in_app_or in Hz.
      destruct Hz as [Hz | [<- | []]]; [apply Ha; exact Hz |].
      apply fltb_false_fleb; assumption.
Qed.

Lemma py_min_fold (rest before after : list A) (x : A) :
  (forall y, In y before -> flt (key x) (key y)) ->
  (forall y, In y after -> fle (key x) (key y)) ->
  key x <> NaN ->
  (forall y, In y rest -> key y <> NaN) ->
  first_min key (before ++ x :: after ++ rest) (py_min key x rest).
Proof.
  revert before after x.
  induction rest as [| y rest IH]; intros before after x Hb Ha Hx Hr.
  - exists before, after. rewrite app_nil_r. auto.
  - assert (Hy : key y <> NaN) by (apply Hr; left; reflexivity).
    assert (Hr' : forall z, In z rest -> key z <> NaN)
      by (intros z Hz; apply Hr; right; exact Hz).
    unfold py_min. cbn [fold_left].
    destruct (fltb (key y) (key x)) eqn:Hxy.
    + replace (before ++ x :: after ++ y :: rest)
        with ((before ++ x :: after) ++ y :: [] ++ rest)
        by (rewrite <- app_assoc; reflexivity).
      apply IH; trivial; [| intros z []].
      intros z Hz. apply in_app_or in Hz. unfold flt.
      destruct Hz as [Hz | [<- | Hz]].
      * apply fltb_trans with (key x); [exact Hxy | apply Hb; exact Hz].
      * exact Hxy.
      * apply fltb_fleb_trans with (key x); [exact Hxy | apply Ha; exact Hz].
    + replace (before ++ x :: after ++ y :: rest)
        with (before ++ x :: (after ++ [y]) ++ rest)
        by (rewrite <- app_assoc; reflexivity).
      apply IH; trivial.
      intros z Hz. apply in_app_or in Hz.
      destruct Hz as [Hz | [<- | []]]; [apply Ha; exact Hz |].
      apply fltb_false_fleb; assumption.
Qed.

(** With keys that are all defined, [max] returns the first item of
    largest key and [min] the first item of smallest key. *)
Lemma py_max_first_max (x : A) (rest : list A) :
  (forall y, In y (x :: rest) -> key y <> NaN) ->
  first_max key (x :: rest) (py_max key x rest).
Proof.
  intros H. apply (py_max_fold rest [] [] x).
  - intros y [].
  - intros y [].
  - apply H. left. reflexivity.
  - intros y Hy. apply H. right. exact Hy.
Qed.

Lemma py_min_first_min (x : A) (rest : list A) :
  (forall y, In y (x :: rest) -> key y <> NaN) ->
  first_min key (x :: rest) (py_min key x rest).
Proof.
  intros H. apply (py_min_fold rest [] [] x).
  - intros y [].
  - intros y [].
  - apply H. left. reflexivity.
  - intros y Hy. apply H. right. exact Hy.
Qed.

End Extremes.

(** C8, as amended: for every non-empty set of results in which no total
    return and no volatility is NaN, the best performer reported is the
    ticker of largest total return, the worst performer the ticker of
    smallest total return and the most volatile the ticker of largest
    volatility, each the first such ticker in the order of the results. *)
Theorem performers_are_first_extremes (self : StockAnalyzer) :
  analysis_results self <> [] ->
  (forall item, In item (analysis_results self) ->
                total_return (snd item) <> NaN /\
                volatility (snd item) <> NaN) ->
  exists r,
    print_summary self = Some r /\
    first_max (fun x => total_return (snd x)) (analysis_results self)
              (best_stock r) /\
    first_min (fun x => total_return (snd x)) (analysis_results self)
              (worst_stock r) /\
    first_max (fun x => volatility (snd x)) (analysis_results self)
              (most_volatile r).
Proof.
  intros Hne Hdef. unfold print_summary.
  destruct (analysis_results self) as [| item items]; [congruence |].
  eexists. split; [reflexivity |].
  cbn [best_stock worst_stock most_volatile].
  split; [| split].
  - apply py_max_first_max. intros y Hy. apply (Hdef y Hy).
  - apply py_min_first_min. intros y Hy. apply (Hdef y Hy).
  - apply py_max_first_max. intros y Hy. apply (Hdef y Hy).
Qed.

Lemma performers_are_first_extremes_witness :
  exists r,
    print_summary three_results = Some r /\
    first_max (fun x => total_return (snd x)) (analysis_results three_results)
              (best_stock r) /\
    first_min (fun x => total_return (snd x)) (analysis_results three_results)
              (worst_stock r) /\
    first_max (fun x => volatility (snd x)) (analysis_results three_results)
              (most_volatile r).
Proof.
  apply (performers_are_first_extremes three_results).
  - simpl. discriminate.
  - simpl. intros item [<- | [<- | [<- | []]]]; split; discriminate.
Defined.

(** On the results of the specification's example, +20, -5 and +3 percent,
    the best performer is the first ticker and the worst the second; the
    second and third tie on volatility and the second is reported. *)
Example three_results_report :
  exists r,
    print_summary three_results = Some r /\
    fst (best_stock r) = "AAA"%string /\
    fst (worst_stock r) = "BBB"%string /\
    fst (most_volatile r) = "BBB"%string.
Proof.
  eexists. split; [reflexivity |].
  unfold three_results, py_max, py_min, fgtb.
  repeat (cbn [best_stock worst_stock most_volatile analysis_results
               fold_left fst snd total_return volatility fltb];
          match goal with
          | |- context [Rlt_dec ?x ?y] =>
              destruct (Rlt_dec x y); try (exfalso; lra)
          end).
  repeat split.
Qed.

Lemma fetch_one_and_up :
  fetch_data download_mixed (init ["ONE"; "UP"]%string "" "")
  = mkAnalyzer ["ONE"; "UP"]%string "" ""
      [("ONE"%string, raw_frame [100]); ("UP"%string, raw_frame [100; 110])]
      [].
Proof. reflexivity. Qed.

(** C8, as stated, fails when a total return is NaN.  With a first ticker
    of a single bar (total return NaN) and a second one that rose by 10
    percent, the first ticker is reported as best performer and as most
    volatile: no later value compares greater than NaN. *)
Lemma best_performer_with_nan_is_first_ticker :
  exists self' r mOne mUp,
    calculate_metrics
      (fetch_data download_mixed (init ["ONE"; "UP"]%string "" ""))
    = Returns self' /\
    analysis_results self' = [("ONE"%string, mOne); ("UP"%string, mUp)] /\
    total_return mOne = NaN /\
    total_return mUp = Fin 10 /\
    print_summary self' = Some r /\
    best_stock r = ("ONE"%string, mOne) /\
    most_volatile r = ("ONE"%string, mOne) /\
    ~ first_max (fun x => total_return (snd x)) (analysis_results self')
        (best_stock r).
Proof.
  rewrite fetch_one_and_up. unfold calculate_metrics.
  cbn [stock_data calculate_loop].
  rewrite (summary_add_columns (raw_frame [100]) 100 [] eq_refl).
  cbn [bind].
  rewrite (summary_add_columns (raw_frame [100; 110]) 100 [110] eq_refl).
  cbn [bind].
  assert (Hpos : positive_prices [100; 110]) by (repeat constructor; lra).
  rewrite (cumulative_tail_first_positive 100 [110] Hpos).
  cbn [map last fmul returns_from cumulative_tail].
  replace ((110 / 100 - 1) * 100) with 10 by lra.
  eexists. eexists. eexists. eexists.
  split; [reflexivity |].
  split; [reflexivity |].
  split; [reflexivity |].
  split; [reflexivity |].
  split; [reflexivity |].
  split; [reflexivity |].
  split; [reflexivity |].
  intros (before & after & Heq & Hb & Ha).
  destruct before as [| b before].
  - injection Heq as Heq. subst after.
    specialize (Ha _ (in_eq _ _)). discriminate Ha.
  - injection Heq as Hb0 _. subst b.
    specialize (Hb _ (in_eq _ _)). discriminate Hb.
Qed.

(** ** Tickers without bars, and prices that are not positive *)

(** C9: a ticker whose download returns no bar (or raises) is not inserted
    into the store by [fetch_data], and [calculate_metrics] then returns
    without a record for it. *)
Theorem empty_series_ticker_is_excluded (download : downloader)
  (ts : list string) (s e t : string) :
  (forall data, download t s e = Returns data -> empty data = true) ->
  Dict.get t (stock_data (fetch_data download (init ts s e))) = None /\
  exists self',
    calculate_metrics (fetch_data download (init ts s e)) = Returns self' /\
    Dict.get t (analysis_results self') = None.
Proof.
  intros Hempty.
  destruct (fetch_data_inv download s e ts) as (_ & _ & _ & _ & Hst).
  assert (Hn : ~ In t (Dict.keys (stock_data (fetch_data download
                                                (init ts s e))))).
  { apply get_none_iff.
    destruct (Dict.get t (stock_data (fetch_data download (init ts s e))))
      as [d |] eqn:Hg; [| reflexivity].
    apply get_in in Hg. destruct (Hst t d Hg) as [Hd Hne].
    rewrite (Hempty d Hd) in Hne. discriminate. }
  split; [apply get_none_iff; exact Hn |].
  destruct (calculate_after_fetch download ts s e)
    as (self' & Hret & _ & Hout & _).
  exists self'. split; [exact Hret | apply Hout; exact Hn].
Qed.

Lemma empty_series_ticker_is_excluded_witness :
  Dict.get "NONE"
    (stock_data (fetch_data download_mixed
                   (init ["UP"; "NONE"; "ONE"]%string "" ""))) = None /\
  exists self',
    calculate_metrics
      (fetch_data download_mixed (init ["UP"; "NONE"; "ONE"]%string "" ""))
    = Returns self' /\
    Dict.get "NONE" (analysis_results self') = None.
Proof.
  apply (empty_series_ticker_is_excluded download_mixed
           ["UP"; "NONE"; "ONE"]%string "" "" "NONE").
  intros data H. injection H as <-. reflexivity.
Defined.

(** C3, as amended: a series with a zero or negative close does not make
    the computation fail.  [calculate_metrics] has no check of the prices:
    after [fetch_data] it returns, the ticker of such a series has its
    record, the summary of its frame, and so has every other ticker of the
    store. *)
Theorem nonpositive_close_still_yields_metrics (download : downloader)
  (ts : list string) (s e t : string) (data : DataFrame) :
  Dict.get t (stock_data (fetch_data download (init ts s e))) = Some data ->
  has_nonpositive_price (Close data) ->
  exists self' m,
    calculate_metrics (fetch_data download (init ts s e)) = Returns self' /\
    summary (add_columns data) = Returns m /\
    Dict.get t (analysis_results self') = Some m /\
    forall t', In t' (Dict.keys (stock_data (fetch_data download
                                               (init ts s e)))) ->
               exists m', Dict.get t' (analysis_results self') = Some m'.
Proof.
  intros Hget _.
  destruct (calculate_after_fetch download ts s e)
    as (self' & Hret & Hin & _ & _).
  destruct (Hin t data (get_in _ _ _ Hget)) as (m & Hm & Hgm).
  exists self', m. repeat split; trivial.
  intros t' Ht'. unfold Dict.keys in Ht'. apply in_map_iff in Ht'.
  destruct Ht' as ([t0 d0] & <- & Hd0).
  destruct (Hin t0 d0 Hd0) as (m' & _ & Hm').
  exists m'. exact Hm'.
Qed.

Lemma fetch_neg_zero_up :
  fetch_data download_mixed (init ["NEG"; "ZERO"; "UP"]%string "" "")
  = mkAnalyzer ["NEG"; "ZERO"; "UP"]%string "" ""
      [("NEG"%string, raw_frame [100; -5]);
       ("ZERO"%string, raw_frame [100; 0; 50]);
       ("UP"%string, raw_frame [100; 110])]
      [].
Proof. reflexivity. Qed.

Lemma nonpositive_close_still_yields_metrics_witness :
  exists self' m,
    calculate_metrics
      (fetch_data download_mixed (init ["NEG"; "ZERO"; "UP"]%string "" ""))
    = Returns self' /\
    summary (add_columns (raw_frame [100; 0; 50])) = Returns m /\
    Dict.get "ZERO" (analysis_results self') = Some m /\
    forall t',
      In t' (Dict.keys (stock_data
                          (fetch_data download_mixed
                             (init ["NEG"; "ZERO"; "UP"]%string "" "")))) ->
      exists m', Dict.get t' (analysis_results self') = Some m'.
Proof.
  apply (nonpositive_close_still_yields_metrics download_mixed
           ["NEG"; "ZERO"; "UP"]%string "" "" "ZERO"
           (raw_frame [100; 0; 50])).
  - rewrite fetch_neg_zero_up. reflexivity.
  - exists 0. split; [simpl; auto | lra].
Defined.

(** C3, as stated, fails: with a series that ends on the close -5, one
    that passes through the close 0 and a rising one, [calculate_metrics]
    returns and all three tickers have a record; the total return of the
    first is -105 percent. *)
Lemma nonpositive_close_does_not_fail :
  exists self' mneg mzero mup,
    calculate_metrics
      (fetch_data download_mixed (init ["NEG"; "ZERO"; "UP"]%string "" ""))
    = Returns self' /\
    analysis_results self'
    = [("NEG"%string, mneg); ("ZERO"%string, mzero); ("UP"%string, mup)] /\
    total_return mneg = Fin (-105).
Proof.
  rewrite fetch_neg_zero_up. unfold calculate_metrics.
  cbn [stock_data calculate_loop].
  rewrite (summary_add_columns (raw_frame [100; -5]) 100 [-5] eq_refl).
  cbn [bind].
  rewrite (summary_add_columns (raw_frame [100; 0; 50]) 100 [0; 50] eq_refl).
  cbn [bind].
  rewrite (summary_add_columns (raw_frame [100; 110]) 100 [110] eq_refl).
  cbn [bind].
  eexists. eexists. eexists. eexists.
  split; [reflexivity |].
  split; [reflexivity |].
  cbn [total_return].
  rewrite returns_from_cons_fin by lra.
  rewrite cumulative_tail_cons_fin.
  cbn [returns_from cumulative_tail map putmask zip_with running_prod last
       fmul fsub fneg fadd].
  f_equal. lra.
Qed.

(** ** The worked example of the specification *)

(** The specification's worked example, closes 100, 110, 99: the daily
    returns are NaN, 10, -10; the cumulative returns NaN, 1/10, -1/100; the
    total return is -1 and the volatility the square root of 200. *)
Example metrics_of_100_110_99 :
  daily_return [100; 110; 99] = [NaN; Fin 10; Fin (-10)] /\
  cumulative_return (daily_return [100; 110; 99])
  = [NaN; Fin (1 / 10); Fin (- 1 / 100)] /\
  summary (add_columns (raw_frame [100; 110; 99]))
  = Returns (mkMetrics (Fin (-1)) (Fin (sqrt 200)) (Fin 0) (Fin 10)
               (Fin (-10)) (Fin 99) (Fin 100)).
Proof.
  assert (Hpos : positive_prices [100; 110; 99]) by (repeat constructor; lra).
  assert (Hd : daily_return [100; 110; 99] = [NaN; Fin 10; Fin (-10)]).
  { rewrite daily_return_cons, returns_from_real
      by (try lra; repeat constructor; lra).
    cbn [real_returns map].
    replace ((110 / 100 - 1) * 100) with 10 by lra.
    replace ((99 / 110 - 1) * 100) with (-10) by lra.
    reflexivity. }
  assert (Hc : cumulative_tail (Fin 1) (returns_from 100 [110; 99])
               = [Fin (1 / 10); Fin (- 1 / 100)]).
  { rewrite (cumulative_tail_first_positive 100 [110; 99] Hpos).
    cbn [map].
    replace (110 / 100 - 1) with (1 / 10) by lra.
    replace (99 / 100 - 1) with (- 1 / 100) by lra.
    reflexivity. }
  split; [exact Hd |]. split.
  - rewrite cumulative_return_shape, Hc. reflexivity.
  - rewrite (summary_add_columns (raw_frame [100; 110; 99]) 100 [110; 99]
               eq_refl).
    rewrite Hc, Hd. cbn [last fmul].
    rewrite std_defined_values, mean_defined_values.
    change (dropna [NaN; Fin 10; Fin (-10)]) with (map Fin [10; -10]).
    assert (Hmean : arith_mean (map Fin [10; -10]) = Fin 0).
    { rewrite arith_mean_map_fin. cbn [fold_left length INR].
      f_equal. lra. }
    assert (Hstd : sample_std (map Fin [10; -10]) = Fin (sqrt 200)).
    { unfold sample_std. rewrite Hmean.
      cbn [map length Nat.ltb Nat.leb fsub fneg fadd fmul].
      unfold fsum. cbn [fold_left fadd INR].
      rewrite fdiv_fin by lra.
      replace ((0 + (10 + - 0) * (10 + - 0) + (-10 + - 0) * (-10 + - 0))
               / (1 + 1 - 1)) with 200 by lra.
      cbn [fsqrt]. rewrite Rsign_pos by lra. reflexivity. }
    assert (Hmax : max [NaN; Fin 10; Fin (-10)] = Fin 10).
    { unfold max, np_max. cbn.
      destruct (Rlt_dec 10 (-10)); [exfalso; lra | reflexivity]. }
    assert (Hmin : min [NaN; Fin 10; Fin (-10)] = Fin (-10)).
    { unfold min, np_min. cbn.
      destruct (Rlt_dec (-10) 10); [reflexivity | exfalso; lra]. }
    rewrite Hmean, Hstd, Hmax, Hmin.
    replace (-1 / 100 * 100) with (-1) by lra. reflexivity.
Qed.

(** * Further properties of the code *)

(** ** [fetch_data] on any analyzer *)

Lemma fetch_one_fields (download : downloader) (self : StockAnalyzer)
  (k : string) :
  tickers (fetch_one download self k) = tickers self /\
  start_date (fetch_one download self k) = start_date self /\
  end_date (fetch_one download self k) = end_date self /\
  analysis_results (fetch_one download self k) = analysis_results self.
Proof.
  unfold fetch_one.
  destruct (download k (start_date self) (end_date self)) as [d | ex];
    [destruct (negb (empty d)) |]; repeat split.
Qed.

Lemma fetch_fold_fields (download : downloader) (ts : list string)
  (self : StockAnalyzer) :
  tickers (fold_left (fetch_one download) ts self) = tickers self /\
  start_date (fold_left (fetch_one download) ts self) = start_date self /\
  end_date (fold_left (fetch_one download) ts self) = end_date self /\
  analysis_results (fold_left (fetch_one download) ts self)
  = analysis_results self.
Proof.
  revert self. induction ts as [| k ts IH]; intros self; [repeat split |].
  cbn [fold_left].
  destruct (IH (fetch_one download self k)) as (H1 & H2 & H3 & H4).
  destruct (fetch_one_fields download self k) as (G1 & G2 & G3 & G4).
  repeat split; congruence.
Qed.

Lemma fetch_one_get (download : downloader) (self : StockAnalyzer)
  (k t : string) :
  Dict.get t (stock_data (fetch_one download self k))
  = if String.eqb t k
    then match fetched_frame download (start_date self) (end_date self) k with
         | Some d => Some d
         | None => Dict.get t (stock_data self)
         end
    else Dict.get t (stock_data self).
Proof.
  unfold fetch_one, fetched_frame.
  destruct (String.eqb t k) eqn:E.
  - apply String.eqb_eq in E. subst k.
    destruct (download t (start_date self) (end_date self)) as [d | ex];
      [| reflexivity].
    destruct (negb (empty d)); [| reflexivity].
    cbn [stock_data]. apply get_set_same.
  - apply String.eqb_neq in E.
    destruct (download k (start_date self) (end_date self)) as [d | ex];
      [| reflexivity].
    destruct (negb (empty d)); [| reflexivity].
    cbn [stock_data]. apply get_set_other. exact E.
Qed.

(** What a lookup in the store finds after the loop of [fetch_data]: the
    frame just fetched for a ticker of the list whose download gave one,
    and what was there before for every other ticker. *)
Lemma fetch_fold_get (download : downloader) (ts : list string)
  (self : StockAnalyzer) (t : string) :
  Dict.get t (stock_data (fold_left (fetch_one download) ts self))
  = if in_dec string_dec t ts
    then match fetched_frame download (start_date self) (end_date self) t with
         | Some d => Some d
         | None => Dict.get t (stock_data self)
         end
    else Dict.get t (stock_data self).
Proof.
  revert self. induction ts as [| k ts IH]; intros self; [reflexivity |].
  cbn [fold_left]. rewrite IH.
  destruct (fetch_one_fields download self k) as (_ & -> & -> & _).
  rewrite fetch_one_get.
  destruct (in_dec string_dec t ts) as [Hin | Hn];
    destruct (in_dec string_dec t (k :: ts)) as [Hin' | Hn'];
    try (exfalso; apply Hn'; right; exact Hin).
  - destruct (fetched_frame download (start_date self) (end_date self) t)
      as [d |] eqn:Hf; [reflexivity |].
    destruct (String.eqb t k) eqn:E; [| reflexivity].
    apply String.eqb_eq in E. subst k. rewrite Hf. reflexivity.
  - destruct Hin' as [-> | Hin']; [| contradiction].
    rewrite String.eqb_refl. reflexivity.
  - destruct (String.eqb t k) eqn:E; [| reflexivity].
    apply String.eqb_eq in E. subst k. exfalso. apply Hn'. left. reflexivity.
Qed.

(** X1: a ticker of the list whose download returns a frame with at least
    one bar is in the store after [fetch_data], with that frame, whatever
    the downloads of the other tickers do. *)
Theorem fetched_ticker_is_stored (download : downloader)
  (self : StockAnalyzer) (t : string) (d : DataFrame) :
  In t (tickers self) ->
  download t (start_date self) (end_date self) = Returns d ->
  empty d = false ->
  Dict.get t (stock_data (fetch_data download self)) = Some d.
Proof.
  intros Hin Hd He. unfold fetch_data. rewrite fetch_fold_get.
  destruct (in_dec string_dec t (tickers self)); [| contradiction].
  unfold fetched_frame. rewrite Hd, He. reflexivity.
Qed.

Lemma fetched_ticker_is_stored_witness :
  Dict.get "UP"
    (stock_data (fetch_data download_mixed
                   (init ["BAD"; "UP"; "NONE"]%string "" "")))
  = Some (raw_frame [100; 110]).
Proof.
  apply (fetched_ticker_is_stored download_mixed
           (init ["BAD"; "UP"; "NONE"]%string "" "") "UP"
           (raw_frame [100; 110])).
  - simpl. auto.
  - reflexivity.
  - reflexivity.
Defined.

(** X2: starting from a new analyzer, every frame in the store after
    [fetch_data] belongs to a ticker of the list, is the frame its download
    returned, and has at least one bar. *)
Theorem stored_frame_was_fetched (download : downloader) (ts : list string)
  (s e t : string) (d : DataFrame) :
  Dict.get t (stock_data (fetch_data download (init ts s e))) = Some d ->
  In t ts /\ download t s e = Returns d /\ Close d <> [].
Proof.
  unfold fetch_data. rewrite fetch_fold_get.
  cbn [init tickers start_date end_date stock_data Dict.get].
  destruct (in_dec string_dec t ts) as [Hin | Hn]; [| discriminate].
  unfold fetched_frame.
  destruct (download t s e) as [d' | ex]; [| discriminate].
  destruct (empty d') eqn:He; cbn [negb]; [discriminate |].
  intros [= ->]. repeat split; trivial.
  apply empty_false_close. exact He.
Qed.

Lemma stored_frame_was_fetched_witness :
  In "UP"%string ["BAD"; "UP"; "NONE"]%string /\
  download_mixed "UP"%string ""%string ""%string
  = Returns (raw_frame [100; 110]) /\
  Close (raw_frame [100; 110]) <> [].
Proof.
  apply (stored_frame_was_fetched download_mixed
           ["BAD"; "UP"; "NONE"]%string "" "" "UP" (raw_frame [100; 110])).
  reflexivity.
Defined.

(** X3: [fetch_data] never removes an entry.  A frame already in the store
    stays there unchanged when its ticker is not in the list, or when its
    download raises or returns no bar. *)
Theorem stale_frame_is_kept (download : downloader) (self : StockAnalyzer)
  (t : string) (d : DataFrame) :
  Dict.get t (stock_data self) = Some d ->
  ~ In t (tickers self) \/
  fetched_frame download (start_date self) (end_date self) t = None ->
  Dict.get t (stock_data (fetch_data download self)) = Some d.
Proof.
  intros Hget Hwhy. unfold fetch_data. rewrite fetch_fold_get.
  destruct (in_dec string_dec t (tickers self)) as [Hin | Hn];
    [| exact Hget].
  destruct Hwhy as [Hn | Hnone]; [contradiction |].
  rewrite Hnone. exact Hget.
Qed.

Lemma stale_frame_is_kept_witness :
  Dict.get "NONE"
    (stock_data
       (fetch_data download_mixed
          (mkAnalyzer ["NONE"; "UP"]%string "" ""
             [("NONE"%string, raw_frame [7; 8])] [])))
  = Some (raw_frame [7; 8]).
Proof.
  apply (stale_frame_is_kept download_mixed
           (mkAnalyzer ["NONE"; "UP"]%string "" ""
              [("NONE"%string, raw_frame [7; 8])] [])
           "NONE" (raw_frame [7; 8])).
  - reflexivity.
  - right. reflexivity.
Defined.

(** ** The order of the store *)

Lemma remove_dedup (t : string) (l : list string) :
  dedup (remove string_dec t l) = remove string_dec t (dedup l).
Proof.
  induction l as [| x l IH]; [reflexivity |].
  cbn [remove dedup].
  destruct (string_dec t x) as [-> | Hne].
  - rewrite IH. cbn [remove].
    destruct (string_dec x x) as [_ | H]; [| congruence].
    symmetry. apply remove_remove_eq.
  - cbn [dedup remove]. destruct (string_dec t x) as [H | _]; [congruence |].
    f_equal. rewrite IH. apply remove_remove_comm.
Qed.

Lemma filter_remove (f : string -> bool) (t : string) (l : list string) :
  filter f (remove string_dec t l) = remove string_dec t (filter f l).
Proof.
  induction l as [| x l IH]; [reflexivity |].
  cbn [remove filter].
  destruct (string_dec t x) as [-> | Hne]; destruct (f x) eqn:Hf;
    cbn [remove filter]; rewrite ?Hf.
  - destruct (string_dec x x) as [_ | H]; [exact IH | congruence].
  - exact IH.
  - destruct (string_dec t x) as [H | _]; [congruence |]. f_equal. exact IH.
  - exact IH.
Qed.

Lemma dedup_not_in (K l : list string) (t : string) :
  filter (fun x => if in_dec string_dec x (K ++ [t]) then false else true) l
  = remove string_dec t
      (filter (fun x => if in_dec string_dec x K then false else true) l).
Proof.
  induction l as [| x l IH]; [reflexivity |].
  cbn [filter].
  destruct (in_dec string_dec x (K ++ [t])) as [Hin | Hn];
    destruct (in_dec string_dec x K) as [Hin' | Hn'].
  - exact IH.
  - cbn [remove]. apply in_app_or in Hin.
    destruct Hin as [Hin | [<- | []]]; [contradiction |].
    destruct (string_dec t t) as [_ | H]; [exact IH | congruence].
  - exfalso. apply Hn. apply in_or_app. left. exact Hin'.
  - cbn [remove]. destruct (string_dec t x) as [-> | Hne].
    + exfalso. apply Hn. apply in_or_app. right. left. reflexivity.
    + f_equal. exact IH.
Qed.

Lemma fetch_one_store (download : downloader) (self : StockAnalyzer)
  (k : string) :
  stock_data (fetch_one download self k)
  = match fetched_frame download (start_date self) (end_date self) k with
    | Some d => Dict.set k d (stock_data self)
    | None => stock_data self
    end.
Proof.
  unfold fetch_one, fetched_frame.
  destruct (download k (start_date self) (end_date self)) as [d | ex];
    [| reflexivity].
  destruct (negb (empty d)); reflexivity.
Qed.

(** The keys of the store after the loop of [fetch_data]: those that were
    there, then the new tickers with a frame, each at its first place. *)
Lemma fetch_fold_keys (download : downloader) (ts : list string)
  (self : StockAnalyzer) :
  Dict.keys (stock_data (fold_left (fetch_one download) ts self))
  = Dict.keys (stock_data self)
    ++ dedup
         (filter (fun x => if in_dec string_dec x (Dict.keys (stock_data self))
                           then false else true)
            (filter (fun x =>
                       match fetched_frame download (start_date self)
                               (end_date self) x with
                       | Some _ => true
                       | None => false
                       end) ts)).
Proof.
  revert self. induction ts as [| k ts IH]; intros self.
  - cbn [fold_left filter dedup]. rewrite app_nil_r. reflexivity.
  - cbn [fold_left]. rewrite IH.
    destruct (fetch_one_fields download self k) as (_ & -> & -> & _).
    rewrite fetch_one_store. cbn [filter].
    destruct (fetched_frame download (start_date self) (end_date self) k)
      as [d |]; [| reflexivity].
    cbn [filter]. rewrite keys_set.
    destruct (in_dec string_dec k (Dict.keys (stock_data self)))
      as [Hin | Hn]; [reflexivity |].
    rewrite <- app_assoc. cbn [app dedup]. do 2 f_equal.
    rewrite dedup_not_in. apply remove_dedup.
Qed.

Lemma filter_not_in_nil (l : list string) :
  filter (fun x => if in_dec string_dec x [] then false else true) l = l.
Proof.
  induction l as [| x l IH]; [reflexivity |].
  cbn [filter]. destruct (in_dec string_dec x []) as [[] | _].
  f_equal. exact IH.
Qed.

(** X4: after [fetch_data] on a new analyzer the store lists the tickers
    that got a frame in the order of the ticker list, a ticker given more
    than once at its first place only. *)
Theorem store_follows_ticker_order (download : downloader)
  (ts : list string) (s e : string) :
  Dict.keys (stock_data (fetch_data download (init ts s e)))
  = dedup (filter (fun x => match fetched_frame download s e x with
                            | Some _ => true
                            | None => false
                            end) ts).
Proof.
  unfold fetch_data. rewrite fetch_fold_keys.
  cbn [init tickers start_date end_date stock_data Dict.keys map app].
  rewrite filter_not_in_nil. reflexivity.
Qed.

Example dedup_keeps_first_places :
  dedup ["A"; "B"; "A"; "C"; "B"]%string = ["A"; "B"; "C"]%string.
Proof. reflexivity. Qed.

(** ** [calculate_metrics] on any analyzer *)

Lemma calculate_loop_raises (items : list (string * DataFrame))
  (self : StockAnalyzer) :
  (exists t d, In (t, d) items /\ Close d = []) ->
  calculate_loop items self = Raises IndexError.
Proof.
  revert self. induction items as [| [t0 d0] items IH];
    intros self (t & d & Hin & HC); [contradiction |].
  cbn [calculate_loop].
  destruct (Close d0) as [| c0 cs] eqn:HC0.
  - rewrite (summary_empty d0 HC0). reflexivity.
  - rewrite (summary_add_columns d0 c0 cs HC0). cbn [bind].
    apply IH. exists t, d. split; [| exact HC].
    destruct Hin as [[= -> ->] | Hin]; [congruence | exact Hin].
Qed.

Lemma calculate_loop_raised (items : list (string * DataFrame))
  (self : StockAnalyzer) (ex : exn) :
  calculate_loop items self = Raises ex ->
  ex = IndexError /\ exists t d, In (t, d) items /\ Close d = [].
Proof.
  revert self. induction items as [| [t0 d0] items IH]; intros self Hr;
    [discriminate |].
  cbn [calculate_loop] in Hr.
  destruct (Close d0) as [| c0 cs] eqn:HC0.
  - rewrite (summary_empty d0 HC0) in Hr. cbn [bind] in Hr.
    injection Hr as <-. split; [reflexivity |].
    exists t0, d0. split; [left; reflexivity | exact HC0].
  - rewrite (summary_add_columns d0 c0 cs HC0) in Hr. cbn [bind] in Hr.
    destruct (IH _ Hr) as (He & t & d & Hin & HC).
    split; [exact He |]. exists t, d. split; [right; exact Hin | exact HC].
Qed.

(** X5: [calculate_metrics] raises exactly when the store holds a frame
    without bars, and the exception is then the [IndexError] of
    [iloc[-1]]; no other exception leaves the loop. *)
Theorem calculate_metrics_raises_on_empty_frame (self : StockAnalyzer) :
  (calculate_metrics self = Raises IndexError <->
   exists t d, In (t, d) (stock_data self) /\ Close d = []) /\
  calculate_metrics self <> Raises KeyError.
Proof.
  unfold calculate_metrics. split; [split |].
  - intros Hr. apply (calculate_loop_raised _ _ _ Hr).
  - apply calculate_loop_raises.
  - intros Hr. destruct (calculate_loop_raised _ _ _ Hr) as [He _].
    discriminate He.
Qed.

Lemma set_app_notin {V : Type} (k : string) (v : V) (a b : Dict.dict V) :
  ~ In k (Dict.keys a) -> Dict.set k v (a ++ b) = a ++ Dict.set k v b.
Proof.
  induction a as [| [k0 v0] a IH]; intros Hn; [reflexivity |].
  cbn [app Dict.set].
  destruct (String.eqb k k0) eqn:E.
  - apply String.eqb_eq in E. exfalso. apply Hn. left. symmetry. exact E.
  - f_equal. apply IH. intros H. apply Hn. right. exact H.
Qed.

Lemma set_unchanged {V : Type} (k : string) (v : V) (d : Dict.dict V) :
  Dict.get k d = Some v -> Dict.set k v d = d.
Proof.
  induction d as [| [k0 v0] d IH]; cbn [Dict.get Dict.set]; [discriminate |].
  destruct (String.eqb k k0) eqn:E.
  - intros [= ->]. reflexivity.
  - intros H. f_equal. apply IH. exact H.
Qed.

Lemma in_get_nodup {V : Type} (k : string) (v : V) (d : Dict.dict V) :
  NoDup (Dict.keys d) -> In (k, v) d -> Dict.get k d = Some v.
Proof.
  induction d as [| [k0 v0] d IH]; intros Hnd Hin; [contradiction |].
  change (Dict.keys ((k0, v0) :: d)) with (k0 :: Dict.keys d) in Hnd.
  inversion Hnd as [| ? ? Hnotin Hnd']; subst.
  cbn [Dict.get]. destruct Hin as [[= -> ->] | Hin].
  - rewrite String.eqb_refl. reflexivity.
  - destruct (String.eqb k k0) eqn:E; [| apply IH; assumption].
    apply String.eqb_eq in E. subst k0. exfalso. apply Hnotin.
    unfold Dict.keys. change k with (fst (k, v)). apply in_map. exact Hin.
Qed.

Lemma keys_with_columns (store : Dict.dict DataFrame) :
  Dict.keys (with_columns store) = Dict.keys store.
Proof.
  unfold Dict.keys, with_columns. rewrite map_map. reflexivity.
Qed.

(** The store and the other fields after the loop of [calculate_metrics]. *)
Lemma calculate_loop_store (items : list (string * DataFrame))
  (self self' : StockAnalyzer) :
  calculate_loop items self = Returns self' ->
  stock_data self'
  = fold_left (fun st item => Dict.set (fst item) (add_columns (snd item)) st)
              items (stock_data self) /\
  tickers self' = tickers self /\
  start_date self' = start_date self /\
  end_date self' = end_date self.
Proof.
  revert self. induction items as [| [t0 d0] items IH]; intros self Hr.
  - injection Hr as <-. repeat split.
  - cbn [calculate_loop] in Hr.
    destruct (summary (add_columns d0)) as [m0 | ex]; cbn [bind] in Hr;
      [| discriminate].
    destruct (IH _ Hr) as (H1 & H2 & H3 & H4).
    cbn [stock_data tickers start_date end_date] in *.
    repeat split; assumption.
Qed.

(** Replacing each frame of a store with distinct keys, in the order of
    the store, replaces every frame at its place. *)
Lemma fold_set_own_items (pre items : Dict.dict DataFrame) :
  NoDup (Dict.keys (pre ++ items)) ->
  fold_left (fun st item => Dict.set (fst item) (add_columns (snd item)) st)
            items (with_columns pre ++ items)
  = with_columns (pre ++ items).
Proof.
  revert pre. induction items as [| [t d] items IH]; intros pre Hnd.
  - cbn [fold_left]. rewrite !app_nil_r. reflexivity.
  - cbn [fold_left fst snd].
    rewrite set_app_notin.
    + cbn [Dict.set]. rewrite String.eqb_refl.
      replace (with_columns pre ++ (t, add_columns d) :: items)
        with (with_columns (pre ++ [(t, d)]) ++ items).
      * rewrite IH; rewrite <- app_assoc; [reflexivity | exact Hnd].
      * unfold with_columns. rewrite map_app, <- app_assoc. reflexivity.
    + rewrite keys_with_columns. unfold Dict.keys in *.
      rewrite map_app in Hnd. cbn [map fst] in Hnd.
      apply NoDup_remove_2 in Hnd. intros H. apply Hnd.
      apply in_or_app. left. exact H.
Qed.

(** X6: on a store with distinct tickers whose frames all have a bar,
    [calculate_metrics] returns; afterwards the store holds the same
    tickers in the same order, each frame with its closes unchanged and
    its four columns computed from them, and the ticker list and the dates
    are untouched. *)
Theorem calculate_metrics_updates_every_frame (self : StockAnalyzer) :
  NoDup (Dict.keys (stock_data self)) ->
  (forall t d, In (t, d) (stock_data self) -> Close d <> []) ->
  exists self',
    calculate_metrics self = Returns self' /\
    stock_data self' = with_columns (stock_data self) /\
    tickers self' = tickers self /\
    start_date self' = start_date self /\
    end_date self' = end_date self.
Proof.
  intros Hnd Hne. unfold calculate_metrics.
  destruct (calculate_loop_returns (stock_data self) self Hne) as [self' Hr].
  exists self'. split; [exact Hr |].
  destruct (calculate_loop_store _ _ _ Hr) as (Hs & Ht & Hsd & Hed).
  repeat split; trivial.
  rewrite Hs. apply (fold_set_own_items [] (stock_data self)). exact Hnd.
Qed.

Lemma calculate_metrics_updates_every_frame_witness :
  exists self',
    calculate_metrics (fetch_data download_mixed
                         (init ["UP"; "ONE"]%string "" ""))
    = Returns self' /\
    stock_data self'
    = with_columns (stock_data (fetch_data download_mixed
                                  (init ["UP"; "ONE"]%string "" ""))) /\
    tickers self'
    = tickers (fetch_data download_mixed (init ["UP"; "ONE"]%string "" "")) /\
    start_date self'
    = start_date (fetch_data download_mixed
                    (init ["UP"; "ONE"]%string "" "")) /\
    end_date self'
    = end_date (fetch_data download_mixed (init ["UP"; "ONE"]%string "" "")).
Proof.
  apply (calculate_metrics_updates_every_frame
           (fetch_data download_mixed (init ["UP"; "ONE"]%string "" ""))).
  - simpl. repeat constructor; simpl; intuition discriminate.
  - simpl. intros t d [[= <- <-] | [[= <- <-] | []]]; simpl; discriminate.
Defined.

Lemma zip_with_length (f : float -> float -> float) (s t : Series) :
  length (zip_with f s t) = Nat.min (length s) (length t).
Proof.
  revert t. induction s as [| x s IH]; intros [| y t]; cbn; auto.
Qed.

Lemma running_prod_length (acc : float) (s : Series) :
  length (running_prod acc s) = length s.
Proof. revert acc. induction s; intros acc; cbn; auto. Qed.

Lemma cumprod_length (s : Series) : length (cumprod s) = length s.
Proof.
  unfold cumprod, putmask. rewrite zip_with_length.
  assert (H : length (np_cumprod (zip_with (fun m x => if isna m then Fin 1
                                                       else x) s s))
              = length s).
  { destruct s as [| x s]; [reflexivity |].
    cbn [zip_with np_cumprod length]. rewrite running_prod_length.
    rewrite zip_with_length. lia. }
  rewrite H. lia.
Qed.

Lemma returns_from_length (p : R) (cs : list R) :
  length (returns_from p cs) = length cs.
Proof. revert p. induction cs; intros p; cbn [returns_from length]; auto. Qed.

Lemma daily_return_aligned (close : list R) :
  length (daily_return close) = length close.
Proof.
  destruct close as [| c0 cs]; [reflexivity |].
  rewrite daily_return_cons. cbn [length]. rewrite returns_from_length.
  reflexivity.
Qed.

Lemma cumulative_return_aligned (daily : Series) :
  length (cumulative_return daily) = length daily.
Proof.
  unfold cumulative_return. rewrite length_map, cumprod_length, length_map.
  reflexivity.
Qed.

(** X7: the four columns that [calculate_metrics] adds to a frame are
    index-aligned with its closes: each has one entry per bar, and the
    closes themselves are not changed. *)
Theorem derived_columns_are_aligned (data : DataFrame) :
  exists daily cum ma50 ma200,
    Daily_Return (add_columns data) = Some daily /\
    Cumulative_Return (add_columns data) = Some cum /\
    MA_50 (add_columns data) = Some ma50 /\
    MA_200 (add_columns data) = Some ma200 /\
    Close (add_columns data) = Close data /\
    length daily = length (Close data) /\
    length cum = length (Close data) /\
    length ma50 = length (Close data) /\
    length ma200 = length (Close data).
Proof.
  do 4 eexists. rewrite add_columns_eq.
  cbn [Daily_Return Cumulative_Return MA_50 MA_200 Close].
  repeat (split; [reflexivity |]).
  split; [apply daily_return_aligned |].
  split; [rewrite cumulative_return_aligned; apply daily_return_aligned |].
  split; apply rolling_mean_length.
Qed.

Lemma add_columns_twice (d : DataFrame) :
  add_columns (add_columns d) = add_columns d.
Proof. reflexivity. Qed.

(** A loop over frames that already carry their columns and whose records
    are already in the results changes nothing. *)
Lemma calculate_loop_fixed (items : list (string * DataFrame))
  (self : StockAnalyzer) :
  (forall t d, In (t, d) items ->
               add_columns d = d /\
               Dict.get t (stock_data self) = Some d /\
               exists m, summary d = Returns m /\
                         Dict.get t (analysis_results self) = Some m) ->
  calculate_loop items self = Returns self.
Proof.
  induction items as [| [t d] items IH]; intros H; [reflexivity |].
  destruct (H t d (in_eq _ _)) as (Hd & Hs & m & Hm & Hr).
  cbn [calculate_loop]. rewrite Hd, Hm. cbn [bind].
  cbn [tickers start_date end_date stock_data analysis_results].
  rewrite (set_unchanged _ _ _ Hs), (set_unchanged _ _ _ Hr).
  replace (mkAnalyzer (tickers self) (start_date self) (end_date self)
             (stock_data self) (analysis_results self)) with self
    by (destruct self; reflexivity).
  apply IH. intros t' d' Hin. apply H. right. exact Hin.
Qed.

(** X8: [calculate_metrics] recomputes everything from the closes, so a
    second run changes nothing: on a store with distinct tickers whose
    frames all have a bar, running it on its own result returns that same
    result. *)
Theorem calculate_metrics_is_idempotent (self : StockAnalyzer) :
  NoDup (Dict.keys (stock_data self)) ->
  (forall t d, In (t, d) (stock_data self) -> Close d <> []) ->
  exists self',
    calculate_metrics self = Returns self' /\
    calculate_metrics self' = Returns self'.
Proof.
  intros Hnd Hne. unfold calculate_metrics.
  destruct (calculate_loop_returns (stock_data self) self Hne) as [self' Hr].
  exists self'. split; [exact Hr |].
  destruct (calculate_loop_store _ _ _ Hr) as (Hs & _).
  pose proof (fold_set_own_items [] (stock_data self) Hnd) as Hf.
  change (with_columns [] ++ stock_data self) with (stock_data self) in Hf.
  change ([] ++ stock_data self) with (stock_data self) in Hf.
  rewrite Hf in Hs. clear Hf.
  apply calculate_loop_fixed. intros t d1 Hin.
  rewrite Hs in Hin. unfold with_columns in Hin. apply in_map_iff in Hin.
  destruct Hin as ([t0 d0] & [= <- <-] & Hin0).
  split; [apply add_columns_twice |]. split.
  - rewrite Hs. apply in_get_nodup.
    + rewrite keys_with_columns. exact Hnd.
    + unfold with_columns.
      change (t0, add_columns d0)
        with ((fun item : string * DataFrame =>
                 (fst item, add_columns (snd item))) (t0, d0)).
      apply in_map. exact Hin0.
  - destruct (calculate_loop_records _ _ _ Hnd Hr t0 d0 Hin0) as (m & Hm & Hg).
    exists m. split; assumption.
Qed.

Lemma calculate_metrics_is_idempotent_witness :
  exists self',
    calculate_metrics
      (mkAnalyzer ["UP"]%string "" "" [("UP"%string, raw_frame [100; 110])] [])
    = Returns self' /\
    calculate_metrics self' = Returns self'.
Proof.
  apply (calculate_metrics_is_idempotent
           (mkAnalyzer ["UP"]%string "" ""
              [("UP"%string, raw_frame [100; 110])] [])).
  - simpl. repeat constructor. intros [].
  - simpl. intros t d [[= <- <-] | []]. simpl. discriminate.
Defined.

(** ** Daily returns *)

Lemma returns_from_nth (p : R) (cs : list R) (j : nat) :
  (j < length cs)%nat ->
  nth_error (returns_from p cs) j
  = Some (fmul (fsub (fdiv (Fin (nth j cs 0)) (Fin (nth j (p :: cs) 0)))
                     (Fin 1))
               (Fin 100)).
Proof.
  revert p j. induction cs as [| c cs IH]; intros p j Hj;
    [simpl in Hj; lia |].
  destruct j as [| j]; [reflexivity |].
  cbn [returns_from nth_error]. rewrite IH by (simpl in Hj; lia).
  reflexivity.
Qed.

Lemma daily_return_nth (close : list R) (i : nat) :
  (1 <= i < length close)%nat ->
  nth_error (daily_return close) i
  = Some (fmul (fsub (fdiv (Fin (nth i close 0)) (Fin (nth (i - 1) close 0)))
                     (Fin 1))
               (Fin 100)).
Proof.
  intros Hi. destruct close as [| c0 cs]; [simpl in Hi; lia |].
  destruct i as [| j]; [lia |].
  rewrite daily_return_cons. cbn [nth_error].
  rewrite returns_from_nth by (simpl in Hi; lia).
  replace (S j - 1)%nat with j by lia. reflexivity.
Qed.

(** X9: the daily return of the first bar is missing; under exact
    arithmetic, at every later bar whose previous close is not zero it is
    the percentage change [(close[i] - close[i-1]) / close[i-1] * 100]
    (the program computes [(close[i] / close[i-1] - 1) * 100], which
    rounds differently). *)
Theorem daily_return_is_percentage_change (data : DataFrame) (i : nat) :
  (1 <= i < length (Close data))%nat ->
  nth (i - 1) (Close data) 0 <> 0 ->
  exists daily,
    Daily_Return (add_columns data) = Some daily /\
    nth_error daily 0 = Some NaN /\
    nth_error daily i
    = Some (Fin ((nth i (Close data) 0 - nth (i - 1) (Close data) 0)
                 / nth (i - 1) (Close data) 0 * 100)).
Proof.
  intros Hi Hprev. exists (daily_return (Close data)).
  split; [reflexivity |]. split.
  - destruct (Close data) as [| c0 cs]; [simpl in Hi; lia |].
    rewrite daily_return_cons. reflexivity.
  - rewrite daily_return_nth by assumption.
    rewrite fdiv_fin by assumption. cbn [fsub fneg fadd fmul].
    do 2 f_equal. field. exact Hprev.
Qed.

Lemma daily_return_is_percentage_change_witness :
  exists daily,
    Daily_Return (add_columns (raw_frame [100; 110; 99])) = Some daily /\
    nth_error daily 0 = Some NaN /\
    nth_error daily 2
    = Some (Fin ((nth 2 (Close (raw_frame [100; 110; 99])) 0
                  - nth (2 - 1) (Close (raw_frame [100; 110; 99])) 0)
                 / nth (2 - 1) (Close (raw_frame [100; 110; 99])) 0 * 100)).
Proof.
  apply (daily_return_is_percentage_change (raw_frame [100; 110; 99]) 2).
  - simpl. lia.
  - simpl. lra.
Defined.

Lemma Rsign_zero : Rsign 0 = Eq.
Proof.
  unfold Rsign.
  destruct (total_order_T 0 0) as [[Hlt | Heq] | Hgt]; trivial; lra.
Qed.

Lemma Rsign_neg (x : R) : x < 0 -> Rsign x = Lt.
Proof.
  intros H. unfold Rsign.
  destruct (total_order_T x 0) as [[Hlt | Heq] | Hgt]; trivial; lra.
Qed.

(** X10: a zero close is no error.  The daily return of the bar after it
    is plus infinity when the price rises from zero, minus infinity when
    it falls below zero, and NaN when it stays at zero. *)
Theorem daily_return_after_zero_close (data : DataFrame) (i : nat) :
  (1 <= i < length (Close data))%nat ->
  nth (i - 1) (Close data) 0 = 0 ->
  exists daily x,
    Daily_Return (add_columns data) = Some daily /\
    nth_error daily i = Some x /\
    (0 < nth i (Close data) 0 -> x = PInf) /\
    (nth i (Close data) 0 < 0 -> x = NInf) /\
    (nth i (Close data) 0 = 0 -> x = NaN).
Proof.
  intros Hi Hprev. exists (daily_return (Close data)). eexists.
  split; [reflexivity |].
  split; [apply daily_return_nth; assumption |].
  rewrite Hprev. cbn [fdiv]. rewrite Rsign_zero.
  repeat split; intros Hc.
  - rewrite (Rsign_pos _ Hc). cbn [signed_inf fsub fneg fadd fmul fsign].
    rewrite Rsign_pos by lra. reflexivity.
  - rewrite (Rsign_neg _ Hc). cbn [signed_inf fsub fneg fadd fmul fsign].
    rewrite Rsign_pos by lra. reflexivity.
  - rewrite Hc, Rsign_zero. reflexivity.
Qed.

Lemma daily_return_after_zero_close_witness :
  exists daily x,
    Daily_Return (add_columns (raw_frame [100; 0; 50])) = Some daily /\
    nth_error daily 2 = Some x /\
    (0 < nth 2 (Close (raw_frame [100; 0; 50])) 0 -> x = PInf) /\
    (nth 2 (Close (raw_frame [100; 0; 50])) 0 < 0 -> x = NInf) /\
    (nth 2 (Close (raw_frame [100; 0; 50])) 0 = 0 -> x = NaN).
Proof.
  apply (daily_return_after_zero_close (raw_frame [100; 0; 50]) 2).
  - simpl. lia.
  - reflexivity.
Defined.

Lemma Rsign_scale (k x : R) : 0 < k -> Rsign (k * x) = Rsign x.
Proof.
  intros Hk. unfold Rsign.
  destruct (total_order_T x 0) as [[Hlt | Heq] | Hgt];
    destruct (total_order_T (k * x) 0) as [[Hlt' | Heq'] | Hgt'];
    trivial; exfalso; nra.
Qed.

Lemma fdiv_scale (k c p : R) :
  0 < k -> fdiv (Fin (k * c)) (Fin (k * p)) = fdiv (Fin c) (Fin p).
Proof.
  intros Hk. cbn [fdiv]. rewrite !Rsign_scale by assumption.
  destruct (Rsign p) eqn:Hs; trivial; f_equal; field;
    split; try lra; intros ->; rewrite Rsign_zero in Hs; discriminate.
Qed.

Lemma returns_from_scale (k p : R) (cs : list R) :
  0 < k -> returns_from (k * p) (map (Rmult k) cs) = returns_from p cs.
Proof.
  intros Hk. revert p. induction cs as [| c cs IH]; intros p;
    [reflexivity |].
  cbn [map returns_from]. rewrite fdiv_scale by assumption.
  f_equal. apply IH.
Qed.

Lemma daily_return_scale (k : R) (close : list R) :
  0 < k -> daily_return (map (Rmult k) close) = daily_return close.
Proof.
  intros Hk. destruct close as [| c0 cs]; [reflexivity |].
  cbn [map]. rewrite !daily_return_cons, returns_from_scale by assumption.
  reflexivity.
Qed.

(** X11: the returns do not depend on the unit of the prices.  When every
    close is multiplied by the same positive factor, the daily and the
    cumulative returns are unchanged, and so are the total return, the
    volatility and the average, best and worst day of the summary. *)
Theorem returns_are_scale_invariant (data data' : DataFrame) (k : R)
  (m m' : Metrics) :
  0 < k ->
  Close data' = map (Rmult k) (Close data) ->
  summary (add_columns data) = Returns m ->
  summary (add_columns data') = Returns m' ->
  Daily_Return (add_columns data') = Daily_Return (add_columns data) /\
  Cumulative_Return (add_columns data')
  = Cumulative_Return (add_columns data) /\
  total_return m' = total_return m /\
  volatility m' = volatility m /\
  avg_daily_return m' = avg_daily_return m /\
  best_day m' = best_day m /\
  worst_day m' = worst_day m.
Proof.
  intros Hk HC Hm Hm'.
  assert (Hd : daily_return (Close data') = daily_return (Close data))
    by (rewrite HC; apply daily_return_scale; exact Hk).
  rewrite !add_columns_eq.
  cbn [Daily_Return Cumulative_Return]. rewrite Hd.
  split; [reflexivity |]. split; [reflexivity |].
  destruct (Close data) as [| c0 cs] eqn:HC0.
  - rewrite summary_empty in Hm by assumption. discriminate.
  - cbn [map] in HC.
    rewrite (summary_add_columns data c0 cs HC0) in Hm.
    rewrite (summary_add_columns data' _ _ HC) in Hm'.
    injection Hm as <-. injection Hm' as <-.
    cbn [total_return volatility avg_daily_return best_day worst_day].
    change (k * c0 :: map (Rmult k) cs) with (map (Rmult k) (c0 :: cs)).
    rewrite returns_from_scale, daily_return_scale by assumption.
    repeat split.
Qed.

Lemma returns_are_scale_invariant_witness :
  exists m m',
    summary (add_columns (raw_frame [100; 110])) = Returns m /\
    summary (add_columns (raw_frame [2 * 100; 2 * 110])) = Returns m' /\
    Daily_Return (add_columns (raw_frame [2 * 100; 2 * 110]))
    = Daily_Return (add_columns (raw_frame [100; 110])) /\
    Cumulative_Return (add_columns (raw_frame [2 * 100; 2 * 110]))
    = Cumulative_Return (add_columns (raw_frame [100; 110])) /\
    total_return m' = total_return m /\
    volatility m' = volatility m /\
    avg_daily_return m' = avg_daily_return m /\
    best_day m' = best_day m /\
    worst_day m' = worst_day m.
Proof.
  eexists. eexists.
  split; [exact (summary_add_columns (raw_frame [100; 110]) 100 [110]
                   eq_refl) |].
  split; [exact (summary_add_columns (raw_frame [2 * 100; 2 * 110])
                   (2 * 100) [2 * 110] eq_refl) |].
  apply (returns_are_scale_invariant
           (raw_frame [100; 110]) (raw_frame [2 * 100; 2 * 110]) 2).
  - lra.
  - reflexivity.
  - exact (summary_add_columns (raw_frame [100; 110]) 100 [110] eq_refl).
  - exact (summary_add_columns (raw_frame [2 * 100; 2 * 110])
             (2 * 100) [2 * 110] eq_refl).
Defined.

Lemma last_map_nonempty {A B : Type} (f : A -> B) (x : A) (l : list A)
  (d : B) (d' : A) :
  last (map f (x :: l)) d = f (last (x :: l) d').
Proof.
  revert x. induction l as [| y l IH]; intros x; [reflexivity |].
  change (last (map f (x :: y :: l)) d) with (last (map f (y :: l)) d).
  rewrite IH. reflexivity.
Qed.

(** X12: under exact arithmetic, with positive closes and at least two
    bars the total return of the summary is the percentage change from the
    start price to the current price of the same record. *)
Theorem total_return_from_start_to_current_price (data : DataFrame) :
  positive_prices (Close data) ->
  (2 <= length (Close data))%nat ->
  exists m start current,
    summary (add_columns data) = Returns m /\
    start_price m = Fin start /\
    current_price m = Fin current /\
    total_return m = Fin ((current - start) / start * 100).
Proof.
  intros Hpos Hlen.
  destruct (Close data) as [| c0 [| c1 cs]] eqn:HC;
    [simpl in Hlen; lia | simpl in Hlen; lia |].
  exists (mkMetrics
            (fmul (last (cumulative_tail (Fin 1) (returns_from c0 (c1 :: cs)))
                        NaN) (Fin 100))
            (std (daily_return (c0 :: c1 :: cs)))
            (mean (daily_return (c0 :: c1 :: cs)))
            (max (daily_return (c0 :: c1 :: cs)))
            (min (daily_return (c0 :: c1 :: cs)))
            (Fin (last (c1 :: cs) c0)) (Fin c0)).
  exists c0, (last (c1 :: cs) c0).
  split; [exact (summary_add_columns data c0 (c1 :: cs) HC) |].
  split; [reflexivity |]. split; [reflexivity |].
  cbn [total_return].
  rewrite (cumulative_tail_first_positive c0 (c1 :: cs) Hpos).
  rewrite (last_map_nonempty _ c1 cs NaN c0). cbn [fmul]. f_equal.
  assert (Hc0 : 0 < c0) by (inversion Hpos; assumption).
  field. lra.
Qed.

Lemma total_return_from_start_to_current_price_witness :
  exists m start current,
    summary (add_columns (raw_frame [100; 110; 99])) = Returns m /\
    start_price m = Fin start /\
    current_price m = Fin current /\
    total_return m = Fin ((current - start) / start * 100).
Proof.
  apply (total_return_from_start_to_current_price
           (raw_frame [100; 110; 99])).
  - repeat constructor; simpl; lra.
  - simpl. lia.
Defined.

(** X13: a series of exactly two bars whose first close is not zero has
    a single defined daily return.  The average, the best and the worst
    day of the summary are that stored return itself, and the volatility
    is NaN: the sample standard deviation divides by the number of returns
    less one. *)
Theorem two_bar_series_has_no_volatility (data : DataFrame) (c0 c1 : R) :
  Close data = [c0; c1] ->
  c0 <> 0 ->
  exists m r,
    summary (add_columns data) = Returns m /\
    Daily_Return (add_columns data) = Some [NaN; Fin r] /\
    volatility m = NaN /\
    avg_daily_return m = Fin r /\
    best_day m = Fin r /\
    worst_day m = Fin r.
Proof.
  intros HC Hc0. eexists. exists ((c1 / c0 - 1) * 100).
  split; [exact (summary_add_columns data c0 [c1] HC) |].
  assert (Hd : daily_return [c0; c1] = [NaN; Fin ((c1 / c0 - 1) * 100)]).
  { rewrite daily_return_cons, returns_from_cons_fin by assumption.
    reflexivity. }
  split; [rewrite add_columns_eq, HC; cbn [Daily_Return]; rewrite Hd;
          reflexivity |].
  cbn [volatility avg_daily_return best_day worst_day]. rewrite Hd.
  split; [reflexivity |].
  split.
  { rewrite mean_defined_values.
    change (dropna [NaN; Fin ((c1 / c0 - 1) * 100)])
      with (map Fin [(c1 / c0 - 1) * 100]).
    rewrite arith_mean_map_fin. cbn [fold_left length INR].
    f_equal. set (x := (c1 / c0 - 1) * 100). lra. }
  split; reflexivity.
Qed.

Lemma two_bar_series_has_no_volatility_witness :
  exists m r,
    summary (add_columns (raw_frame [100; 110])) = Returns m /\
    Daily_Return (add_columns (raw_frame [100; 110])) = Some [NaN; Fin r] /\
    volatility m = NaN /\
    avg_daily_return m = Fin r /\
    best_day m = Fin r /\
    worst_day m = Fin r.
Proof.
  apply (two_bar_series_has_no_volatility (raw_frame [100; 110]) 100 110).
  - reflexivity.
  - lra.
Defined.

(** ** Volatility *)

Lemma fsqrt_nonneg (x : R) : 0 <= x -> fsqrt (Fin x) = Fin (sqrt x).
Proof.
  intros Hx. cbn [fsqrt]. unfold Rsign.
  destruct (total_order_T x 0) as [[Hlt | Heq] | Hgt]; trivial; lra.
Qed.

Lemma fold_Rplus_all_zero (l : list R) (a : R) :
  (forall x, In x l -> 0 <= x) ->
  fold_left Rplus l a = a ->
  forall x, In x l -> x = 0.
Proof.
  revert a. induction l as [| y l IH]; intros a Hpos Hsum x Hx;
    [contradiction |].
  cbn [fold_left] in Hsum.
  assert (Hl : forall z, In z l -> 0 <= z)
    by (intros z Hz; apply Hpos; right; exact Hz).
  pose proof (fold_Rplus_lower l (a + y) 0 Hl) as Hlow.
  pose proof (Hpos y (in_eq _ _)) as Hy.
  assert (Hy0 : y = 0) by lra.
  destruct Hx as [<- | Hx]; [exact Hy0 |].
  apply (IH (a + y)); trivial. lra.
Qed.

Lemma fold_Rplus_constant (l : list R) (a c : R) :
  (forall x, In x l -> x = c) ->
  fold_left Rplus l a = a + INR (length l) * c.
Proof.
  intros H. apply Rle_antisym.
  - apply fold_Rplus_upper. intros x Hx. rewrite (H x Hx). lra.
  - apply fold_Rplus_lower. intros x Hx. rewrite (H x Hx). lra.
Qed.

Lemma square_nonneg (x : R) : 0 <= x * x.
Proof. apply Rle_0_sqr. Qed.

Lemma square_zero (x : R) : x * x = 0 -> x = 0.
Proof. intros H. apply Rmult_integral in H. destruct H; assumption. Qed.

(** The sample standard deviation of at least two finite values. *)
Lemma sample_std_fin (r1 r2 : R) (rs : list R) :
  let l := r1 :: r2 :: rs in
  let mu := fold_left Rplus l 0 / INR (length l) in
  let sq := map (fun r => (r + - mu) * (r + - mu)) l in
  sample_std (map Fin l)
  = Fin (sqrt (fold_left Rplus sq 0 / (INR (length l) - 1))) /\
  0 <= fold_left Rplus sq 0 / (INR (length l) - 1).
Proof.
  intros l mu sq.
  assert (Hn : 1 < INR (length l)).
  { unfold l. cbn [length]. rewrite !S_INR.
    pose proof (pos_INR (length rs)). lra. }
  assert (Hsq : 0 <= fold_left Rplus sq 0).
  { pose proof (fold_Rplus_lower sq 0 0) as H.
    rewrite Rmult_0_r, Rplus_0_l in H. apply H.
    intros x Hx. unfold sq in Hx. apply in_map_iff in Hx.
    destruct Hx as (r & <- & _). apply square_nonneg. }
  assert (Hx : 0 <= fold_left Rplus sq 0 / (INR (length l) - 1)).
  { apply le_div_of_mul_le; lra. }
  split; [| exact Hx].
  assert (Hm : arith_mean (map Fin l) = Fin mu)
    by (unfold mu, l; apply arith_mean_map_fin).
  unfold sample_std. rewrite length_map.
  replace (length l <? 2)%nat with false
    by (unfold l; reflexivity).
  cbv zeta. rewrite !Hm, map_map.
  match goal with
  | |- fsqrt (fdiv (fsum ?X) _) = _ =>
      replace X with (map Fin sq)
        by (unfold sq; rewrite map_map; reflexivity)
  end.
  unfold fsum. rewrite fold_fadd_map_fin.
  rewrite fdiv_fin by lra.
  apply fsqrt_nonneg. exact Hx.
Qed.

(** X14: under exact arithmetic, with positive closes and at least three
    bars the volatility is a finite number that is not negative, and it is
    zero exactly when all the daily returns are equal. *)
Theorem volatility_is_nonnegative (data : DataFrame) :
  positive_prices (Close data) ->
  (3 <= length (Close data))%nat ->
  exists m v rs,
    summary (add_columns data) = Returns m /\
    Daily_Return (add_columns data) = Some (NaN :: map Fin rs) /\
    volatility m = Fin v /\
    0 <= v /\
    (v = 0 <-> all_equal rs).
Proof.
  intros Hpos Hlen.
  destruct (Close data) as [| c0 [| c1 [| c2 cs]]] eqn:HC;
    try (simpl in Hlen; lia).
  inversion Hpos as [| ? ? Hc0 Htail]; subst.
  remember (real_returns c0 (c1 :: c2 :: cs)) as rs eqn:Hrs.
  assert (Hd : daily_return (c0 :: c1 :: c2 :: cs) = NaN :: map Fin rs).
  { rewrite daily_return_cons, returns_from_real by assumption.
    rewrite Hrs. reflexivity. }
  destruct rs as [| r1 [| r2 rs]]; try discriminate Hrs.
  destruct (sample_std_fin r1 r2 rs) as [Hstd Hx].
  cbv zeta in Hstd, Hx.
  set (l := r1 :: r2 :: rs) in *.
  set (mu := fold_left Rplus l 0 / INR (length l)) in *.
  set (sq := map (fun r => (r + - mu) * (r + - mu)) l) in *.
  assert (Hn : 1 < INR (length l)).
  { unfold l. cbn [length]. rewrite !S_INR.
    pose proof (pos_INR (length rs)). lra. }
  eexists. exists (sqrt (fold_left Rplus sq 0 / (INR (length l) - 1))), l.
  split; [exact (summary_add_columns data c0 (c1 :: c2 :: cs) HC) |].
  split; [rewrite add_columns_eq, HC; cbn [Daily_Return]; rewrite Hd;
          reflexivity |].
  cbn [volatility]. rewrite Hd, std_defined_values.
  change (dropna (NaN :: map Fin l)) with (dropna (map Fin l)).
  rewrite dropna_map_fin.
  split; [exact Hstd |]. split; [apply sqrt_pos |].
  assert (Hsqpos : forall x, In x sq -> 0 <= x).
  { intros x Hin. unfold sq in Hin. apply in_map_iff in Hin.
    destruct Hin as (r & <- & _). apply square_nonneg. }
  split.
  - intros Hv. apply sqrt_eq_0 in Hv; [| exact Hx].
    assert (Hsum : fold_left Rplus sq 0 = 0).
    { unfold Rdiv in Hv. apply Rmult_integral in Hv.
      destruct Hv as [Hv | Hv]; [exact Hv |].
      exfalso. apply (Rinv_neq_0_compat (INR (length l) - 1)); lra. }
    assert (Hmu : forall r, In r l -> r = mu).
    { intros r Hr.
      assert (Hz : (r + - mu) * (r + - mu) = 0).
      { apply (fold_Rplus_all_zero sq 0 Hsqpos Hsum).
        unfold sq. apply in_map_iff. exists r. split; [reflexivity | exact Hr]. }
      apply square_zero in Hz. lra. }
    intros r r' Hr Hr'. rewrite (Hmu r Hr), (Hmu r' Hr'). reflexivity.
  - intros Heq.
    assert (Hall : forall r, In r l -> r = r1).
    { intros r Hr. apply Heq; [exact Hr | left; reflexivity]. }
    assert (Hmu : mu = r1).
    { unfold mu. rewrite (fold_Rplus_constant l 0 r1 Hall). field. lra. }
    assert (Hsum : fold_left Rplus sq 0 = 0).
    { rewrite (fold_Rplus_constant sq 0 0).
      - lra.
      - intros x Hin. unfold sq in Hin. apply in_map_iff in Hin.
        destruct Hin as (r & <- & Hr). rewrite (Hall r Hr), Hmu. ring. }
    rewrite Hsum. unfold Rdiv. rewrite Rmult_0_l. apply sqrt_0.
Qed.

Lemma volatility_is_nonnegative_witness :
  exists m v rs,
    summary (add_columns (raw_frame [100; 110; 99])) = Returns m /\
    Daily_Return (add_columns (raw_frame [100; 110; 99]))
    = Some (NaN :: map Fin rs) /\
    volatility m = Fin v /\
    0 <= v /\
    (v = 0 <-> all_equal rs).
Proof.
  apply (volatility_is_nonnegative (raw_frame [100; 110; 99])).
  - repeat constructor; simpl; lra.
  - simpl. lia.
Defined.

(** ** Moving averages slide *)

Lemma range_sum_snoc (s : list R) (lo n : nat) :
  range_sum s lo (S n) = range_sum s lo n + nth (lo + n) s 0.
Proof.
  revert lo. induction n as [| n IH]; intros lo.
  - cbn [range_sum]. rewrite Nat.add_0_r. lra.
  - change (range_sum s lo (S (S n)))
      with (nth lo s 0 + range_sum s (S lo) (S n)).
    rewrite IH. cbn [range_sum].
    replace (S lo + n)%nat with (lo + S n)%nat by lia. lra.
Qed.

Lemma window_mean_slides (w i : nat) (s : list R) :
  (1 <= w <= i)%nat ->
  window_mean w s i
  = window_mean w s (i - 1) + (nth i s 0 - nth (i - w) s 0) / INR w.
Proof.
  intros Hw. unfold window_mean.
  replace (i - 1 + 1 - w)%nat with (i - w)%nat by lia.
  replace (i + 1 - w)%nat with (S (i - w)) by lia.
  pose proof (range_sum_snoc s (i - w) w) as Hs.
  cbn [range_sum] in Hs.
  replace (i - w + w)%nat with i in Hs by lia.
  assert (HW : INR w <> 0) by (apply not_0_INR; lia).
  replace (range_sum s (S (i - w)) w)
    with (range_sum s (i - w) w + nth i s 0 - nth (i - w) s 0) by lra.
  field. exact HW.
Qed.

(** X15: under exact arithmetic, once the window is full the 50-day
    average moves by the bar that enters less the bar that leaves, over 50:
    [MA_50[i] = MA_50[i-1] + (close[i] - close[i-50]) / 50] for
    [i >= 50]; the 200-day average does the same for [i >= 200]. *)
Theorem moving_average_slides (data : DataFrame) (i : nat) :
  (50 <= i < length (Close data))%nat ->
  exists ma50 ma200 a b,
    MA_50 (add_columns data) = Some ma50 /\
    MA_200 (add_columns data) = Some ma200 /\
    nth_error ma50 (i - 1) = Some (Fin b) /\
    nth_error ma50 i = Some (Fin a) /\
    a = b + (nth i (Close data) 0 - nth (i - 50) (Close data) 0) / 50 /\
    ((200 <= i)%nat ->
     exists a' b',
       nth_error ma200 (i - 1) = Some (Fin b') /\
       nth_error ma200 i = Some (Fin a') /\
       a' = b' + (nth i (Close data) 0 - nth (i - 200) (Close data) 0) / 200).
Proof.
  intros Hi.
  exists (rolling_mean 50 (Close data)), (rolling_mean 200 (Close data)).
  exists (window_mean 50 (Close data) i), (window_mean 50 (Close data) (i - 1)).
  split; [reflexivity |]. split; [reflexivity |].
  split.
  { rewrite rolling_mean_nth by lia.
    destruct (Nat.leb_spec 50 (i - 1 + 1)); [reflexivity | lia]. }
  split.
  { rewrite rolling_mean_nth by lia.
    destruct (Nat.leb_spec 50 (i + 1)); [reflexivity | lia]. }
  split.
  { rewrite (window_mean_slides 50 i) by lia.
    replace (INR 50) with 50 by (rewrite INR_IZR_INZ; reflexivity).
    reflexivity. }
  intros H200.
  exists (window_mean 200 (Close data) i),
         (window_mean 200 (Close data) (i - 1)).
  split.
  { rewrite rolling_mean_nth by lia.
    destruct (Nat.leb_spec 200 (i - 1 + 1)); [reflexivity | lia]. }
  split.
  { rewrite rolling_mean_nth by lia.
    destruct (Nat.leb_spec 200 (i + 1)); [reflexivity | lia]. }
  rewrite (window_mean_slides 200 i) by lia.
  replace (INR 200) with 200 by (rewrite INR_IZR_INZ; reflexivity).
  reflexivity.
Qed.

Lemma moving_average_slides_witness :
  exists ma50 ma200 a b,
    MA_50 (add_columns (raw_frame (repeat 100%R 60))) = Some ma50 /\
    MA_200 (add_columns (raw_frame (repeat 100%R 60))) = Some ma200 /\
    nth_error ma50 (55 - 1) = Some (Fin b) /\
    nth_error ma50 55 = Some (Fin a) /\
    a = b + (nth 55 (Close (raw_frame (repeat 100%R 60))) 0
             - nth (55 - 50) (Close (raw_frame (repeat 100%R 60))) 0) / 50 /\
    ((200 <= 55)%nat ->
     exists a' b',
       nth_error ma200 (55 - 1) = Some (Fin b') /\
       nth_error ma200 55 = Some (Fin a') /\
       a' = b' + (nth 55 (Close (raw_frame (repeat 100%R 60))) 0
                  - nth (55 - 200) (Close (raw_frame (repeat 100%R 60))) 0)
                 / 200).
Proof.
  apply (moving_average_slides (raw_frame (repeat 100%R 60)) 55).
  simpl. lia.
Defined.

(** ** The performance listing and the performers *)

Lemma listed_tickers (r : Dict.dict Metrics) (f : string -> bool)
  (l : list string) :
  (forall t, In t l ->
             (f t = true <-> exists m, Dict.get t r = Some m)) ->
  map fst (flat_map (fun ticker => match Dict.get ticker r with
                                   | Some results => [(ticker, results)]
                                   | None => []
                                   end) l)
  = filter f l.
Proof.
  induction l as [| t l IH]; intros H; [reflexivity |].
  cbn [flat_map filter]. rewrite map_app.
  rewrite IH by (intros t' Ht'; apply H; right; exact Ht').
  destruct (H t (in_eq _ _)) as [H1 H2].
  destruct (Dict.get t r) as [m |] eqn:Hg.
  - rewrite H2 by (exists m; reflexivity). reflexivity.
  - destruct (f t); [| reflexivity].
    destruct (H1 eq_refl) as [m Hm]. discriminate.
Qed.

(** X16: after [fetch_data] and [calculate_metrics] on a new analyzer the
    performance listing of [print_summary] shows exactly the tickers of
    the list that got a frame, in the order of the list, a ticker given
    twice being listed twice. *)
Theorem listing_shows_fetched_tickers (download : downloader)
  (ts : list string) (s e : string) :
  exists self',
    calculate_metrics (fetch_data download (init ts s e)) = Returns self' /\
    map fst (listed self')
    = filter (fun t => match fetched_frame download s e t with
                       | Some _ => true
                       | None => false
                       end) ts.
Proof.
  destruct (calculate_after_fetch download ts s e)
    as (self' & Hret & Hin & Hout & _).
  exists self'. split; [exact Hret |].
  destruct (calculate_loop_store _ _ _ Hret) as (_ & Ht & _).
  unfold listed. rewrite Ht.
  destruct (fetch_fold_fields download ts (init ts s e)) as (Htk & _).
  unfold fetch_data at 1. cbn [init tickers] in Htk |- *. rewrite Htk.
  apply listed_tickers. intros t Hts.
  assert (Hg : Dict.get t (stock_data (fetch_data download (init ts s e)))
               = fetched_frame download s e t).
  { unfold fetch_data. rewrite fetch_fold_get.
    cbn [init tickers start_date end_date stock_data Dict.get].
    destruct (in_dec string_dec t ts); [| contradiction].
    destruct (fetched_frame download s e t); reflexivity. }
  destruct (fetched_frame download s e t) as [d |].
  - split; [| reflexivity]. intros _.
    destruct (Hin t d (get_in _ _ _ Hg)) as (m & _ & Hm).
    exists m. exact Hm.
  - split; [discriminate |]. intros [m Hm].
    rewrite Hout in Hm; [discriminate |].
    apply get_none_iff. exact Hg.
Qed.

Lemma py_max_nan_first {A : Type} (key : A -> float) (x : A)
  (rest : list A) :
  key x = NaN -> py_max key x rest = x.
Proof.
  intros Hx. unfold py_max.
  induction rest as [| y rest IH]; [reflexivity |].
  cbn [fold_left]. unfold fgtb. rewrite Hx. cbn [fltb].
  exact IH.
Qed.

Lemma fltb_nan_r (a : float) : fltb a NaN = false.
Proof. destruct a; reflexivity. Qed.

Lemma py_min_nan_first {A : Type} (key : A -> float) (x : A)
  (rest : list A) :
  key x = NaN -> py_min key x rest = x.
Proof.
  intros Hx. unfold py_min.
  induction rest as [| y rest IH]; [reflexivity |].
  cbn [fold_left]. rewrite Hx, fltb_nan_r. exact IH.
Qed.

(** X17: when the total return of the first ticker of the results is NaN,
    [print_summary] reports that ticker both as best and as worst
    performer, whatever the returns of the other tickers. *)
Theorem nan_first_ticker_is_best_and_worst (self : StockAnalyzer)
  (item : string * Metrics) (items : list (string * Metrics)) :
  analysis_results self = item :: items ->
  total_return (snd item) = NaN ->
  exists r,
    print_summary self = Some r /\
    best_stock r = item /\
    worst_stock r = item.
Proof.
  intros Hres Hnan. unfold print_summary. rewrite Hres.
  eexists. split; [reflexivity |].
  cbn [best_stock worst_stock].
  split; [apply py_max_nan_first | apply py_min_nan_first]; exact Hnan.
Qed.

Lemma nan_first_ticker_is_best_and_worst_witness :
  exists r,
    print_summary
      (mkAnalyzer ["ONE"; "AAA"]%string "" "" []
         [("ONE"%string, mkMetrics NaN NaN NaN NaN NaN (Fin 100) (Fin 100));
          ("AAA"%string, mkMetrics (Fin 20) (Fin 2) (Fin 1) (Fin 5)
                           (Fin (-4)) (Fin 120) (Fin 100))])
    = Some r /\
    best_stock r
    = ("ONE"%string, mkMetrics NaN NaN NaN NaN NaN (Fin 100) (Fin 100)) /\
    worst_stock r
    = ("ONE"%string, mkMetrics NaN NaN NaN NaN NaN (Fin 100) (Fin 100)).
Proof.
  apply (nan_first_ticker_is_best_and_worst
           (mkAnalyzer ["ONE"; "AAA"]%string "" "" []
              [("ONE"%string,
                mkMetrics NaN NaN NaN NaN NaN (Fin 100) (Fin 100));
               ("AAA"%string,
                mkMetrics (Fin 20) (Fin 2) (Fin 1) (Fin 5) (Fin (-4))
                  (Fin 120) (Fin 100))])
           ("ONE"%string, mkMetrics NaN NaN NaN NaN NaN (Fin 100) (Fin 100))
           [("AAA"%string,
             mkMetrics (Fin 20) (Fin 2) (Fin 1) (Fin 5) (Fin (-4))
               (Fin 120) (Fin 100))]).
  - reflexivity.
  - reflexivity.
Defined.

(** The running maximum passes over NaN keys once it holds a defined one. *)
Lemma py_max_skips_nan {A : Type} (key : A -> float) (rest : list A)
  (x : A) :
  key x <> NaN ->
  key (py_max key x rest) <> NaN /\
  fleb (key x) (key (py_max key x rest)) = true /\
  forall y, In y rest -> key y <> NaN ->
            fleb (key y) (key (py_max key x rest)) = true.
Proof.
  revert x. induction rest as [| y rest IH]; intros x Hx.
  - cbn. split; [exact Hx |]. split; [apply fleb_refl; exact Hx |].
    intros y [].
  - unfold py_max in *. cbn [fold_left]. unfold fgtb.
    destruct (fltb (key x) (key y)) eqn:Hxy.
    + assert (Hy : key y <> NaN)
        by (intros Hn; rewrite Hn, fltb_nan_r in Hxy; discriminate).
      destruct (IH y Hy) as (Hd & Hle & Hall).
      split; [exact Hd |]. split.
      * apply fleb_trans with (key y); [apply fltb_fleb; exact Hxy | exact Hle].
      * intros z [<- | Hz] Hzd; [exact Hle | apply Hall; assumption].
    + destruct (IH x Hx) as (Hd & Hle & Hall).
      split; [exact Hd |]. split; [exact Hle |].
      intros z [<- | Hz] Hzd; [| apply Hall; assumption].
      apply fleb_trans with (key x); [| exact Hle].
      apply fltb_false_fleb; assumption.
Qed.

(** X18: when the total return of the first ticker of the results is
    defined, later tickers whose total return is NaN are passed over: the
    best performer has a defined total return, not below that of any
    ticker whose total return is defined. *)
Theorem best_performer_skips_later_nan (self : StockAnalyzer)
  (item : string * Metrics) (items : list (string * Metrics)) :
  analysis_results self = item :: items ->
  total_return (snd item) <> NaN ->
  exists r,
    print_summary self = Some r /\
    total_return (snd (best_stock r)) <> NaN /\
    forall y, In y (analysis_results self) ->
              total_return (snd y) <> NaN ->
              fle (total_return (snd y)) (total_return (snd (best_stock r))).
Proof.
  intros Hres Hdef. unfold print_summary. rewrite Hres.
  eexists. split; [reflexivity |].
  cbn [best_stock].
  destruct (py_max_skips_nan (fun x => total_return (snd x)) items item Hdef)
    as (Hd & Hle & Hall).
  split; [exact Hd |].
  intros y [<- | Hy] Hyd; [exact Hle | apply Hall; assumption].
Qed.

Lemma best_performer_skips_later_nan_witness :
  exists r,
    print_summary
      (mkAnalyzer ["AAA"; "ONE"]%string "" "" []
         [("AAA"%string, mkMetrics (Fin 20) (Fin 2) (Fin 1) (Fin 5)
                           (Fin (-4)) (Fin 120) (Fin 100));
          ("ONE"%string, mkMetrics NaN NaN NaN NaN NaN (Fin 100) (Fin 100))])
    = Some r /\
    total_return (snd (best_stock r)) <> NaN /\
    forall y,
      In y (analysis_results
              (mkAnalyzer ["AAA"; "ONE"]%string "" "" []
                 [("AAA"%string, mkMetrics (Fin 20) (Fin 2) (Fin 1) (Fin 5)
                                   (Fin (-4)) (Fin 120) (Fin 100));
                  ("ONE"%string,
                   mkMetrics NaN NaN NaN NaN NaN (Fin 100) (Fin 100))])) ->
      total_return (snd y) <> NaN ->
      fle (total_return (snd y)) (total_return (snd (best_stock r))).
Proof.
  apply (best_performer_skips_later_nan
           (mkAnalyzer ["AAA"; "ONE"]%string "" "" []
              [("AAA"%string, mkMetrics (Fin 20) (Fin 2) (Fin 1) (Fin 5)
                                (Fin (-4)) (Fin 120) (Fin 100));
               ("ONE"%string,
                mkMetrics NaN NaN NaN NaN NaN (Fin 100) (Fin 100))])
           ("AAA"%string, mkMetrics (Fin 20) (Fin 2) (Fin 1) (Fin 5)
                            (Fin (-4)) (Fin 120) (Fin 100))
           [("ONE"%string,
             mkMetrics NaN NaN NaN NaN NaN (Fin 100) (Fin 100))]).
  - reflexivity.
  - simpl. discriminate.
Defined.

(** X19: after [fetch_data] and [calculate_metrics] on a new analyzer,
    [print_summary] reports no performers exactly when no ticker got a
    frame, the case in which [run_analysis] stops before it. *)
Theorem performers_reported_unless_store_empty (download : downloader)
  (ts : list string) (s e : string) :
  exists self',
    calculate_metrics (fetch_data download (init ts s e)) = Returns self' /\
    (print_summary self' = None <->
     stock_data (fetch_data download (init ts s e)) = []).
Proof.
  destruct (calculate_after_fetch download ts s e)
    as (self' & Hret & _ & _ & Hkeys).
  exists self'. split; [exact Hret |].
  unfold print_summary.
  destruct (analysis_results self') as [| item items] eqn:Hres;
    destruct (stock_data (fetch_data download (init ts s e))) as [| x xs];
    try discriminate Hkeys; split; intros H; try reflexivity;
    discriminate H.
Qed.

(** ** The charts *)

Lemma axes_at_inside (idx : nat) :
  (idx < 6)%nat -> axes_at 2 3 (idx / 3) (idx mod 3) = Returns (idx / 3, idx mod 3)%nat.
Proof.
  intros H. unfold axes_at.
  assert (H1 : (idx / 3 < 2)%nat) by (apply Nat.Div0.div_lt_upper_bound; lia).
  assert (H2 : (idx mod 3 < 3)%nat) by (apply Nat.mod_upper_bound; lia).
  apply Nat.ltb_lt in H1. apply Nat.ltb_lt in H2.
  rewrite H1, H2. reflexivity.
Qed.

Lemma axes_at_outside (idx : nat) :
  (6 <= idx)%nat -> axes_at 2 3 (idx / 3) (idx mod 3) = Raises IndexError.
Proof.
  intros H. unfold axes_at.
  assert (H1 : (2 <= idx / 3)%nat)
    by (apply Nat.div_le_lower_bound; lia).
  destruct (Nat.ltb_spec (idx / 3) 2); [lia | reflexivity].
Qed.

Lemma grid_loop_returns (items : list (string * DataFrame)) (idx : nat) :
  (idx + length items <= 6)%nat ->
  grid_loop idx items
  = Returns (combine (Dict.keys items)
               (map (fun j => (j / 3, j mod 3)%nat)
                    (seq idx (length items)))).
Proof.
  revert idx. induction items as [| [t d] items IH]; intros idx H;
    [reflexivity |].
  cbn [length] in H. cbn [grid_loop].
  rewrite axes_at_inside by lia. cbn [bind].
  rewrite IH by lia. reflexivity.
Qed.

Lemma grid_loop_raises (items : list (string * DataFrame)) (idx : nat) :
  (idx <= 6 < idx + length items)%nat ->
  grid_loop idx items = Raises IndexError.
Proof.
  revert idx. induction items as [| [t d] items IH]; intros idx H;
    [cbn [length] in H; lia |].
  cbn [length] in H. cbn [grid_loop].
  destruct (Nat.eq_dec idx 6) as [-> | Hne].
  - reflexivity.
  - rewrite axes_at_inside by lia. cbn [bind].
    rewrite IH by lia. reflexivity.
Qed.

Lemma panel_injective (j k : nat) :
  (j / 3, j mod 3)%nat = (k / 3, k mod 3)%nat -> j = k.
Proof.
  intros H.
  assert (Hd : (j / 3 = k / 3)%nat) by exact (f_equal fst H).
  assert (Hm : (j mod 3 = k mod 3)%nat) by exact (f_equal snd H).
  rewrite (Nat.div_mod_eq j 3), (Nat.div_mod_eq k 3), Hd, Hm. reflexivity.
Qed.

Lemma nodup_map_injective {A B : Type} (f : A -> B) (l : list A) :
  (forall x y, f x = f y -> x = y) -> NoDup l -> NoDup (map f l).
Proof.
  intros Hinj Hnd. induction Hnd as [| x l Hx Hnd IH]; cbn [map];
    constructor; [| exact IH].
  intros Hin. apply in_map_iff in Hin. destruct Hin as (y & Hy & Hyl).
  apply Hinj in Hy. subst y. contradiction.
Qed.

Lemma map_fst_combine_eq {A B : Type} (a : list A) (b : list B) :
  length a = length b -> map fst (combine a b) = a.
Proof.
  revert b. induction a as [| x a IH]; intros [| y b] Hl;
    try discriminate Hl; [reflexivity |].
  cbn [combine map fst]. f_equal. apply IH. cbn [length] in Hl. lia.
Qed.

Lemma map_snd_combine_eq {A B : Type} (a : list A) (b : list B) :
  length a = length b -> map snd (combine a b) = b.
Proof.
  revert b. induction a as [| x a IH]; intros [| y b] Hl;
    try discriminate Hl; [reflexivity |].
  cbn [combine map snd]. f_equal. apply IH. cbn [length] in Hl. lia.
Qed.

(** X20: the price chart (and the returns histogram) has room for six
    tickers.  With at most six tickers in the store every ticker gets a
    panel of its own on the 2 x 3 grid, in the order of the store; with
    more than six the lookup of the panel raises [IndexError]. *)
Theorem chart_grid_holds_six_tickers (self : StockAnalyzer) :
  (price_panels self = Raises IndexError <->
   (6 < length (stock_data self))%nat) /\
  (forall panels,
      price_panels self = Returns panels ->
      map fst panels = Dict.keys (stock_data self) /\
      NoDup (map snd panels)).
Proof.
  unfold price_panels.
  destruct (Nat.le_gt_cases (length (stock_data self)) 6) as [Hle | Hgt].
  - rewrite grid_loop_returns by (simpl; exact Hle).
    split; [split; [discriminate | lia] |].
    intros panels H.
    assert (Hp : panels
                 = combine (Dict.keys (stock_data self))
                     (map (fun j => (j / 3, j mod 3)%nat)
                          (seq 0 (length (stock_data self)))))
      by congruence.
    rewrite Hp. clear H Hp.
    assert (Hlen : length (Dict.keys (stock_data self))
                   = length (map (fun j => (j / 3, j mod 3)%nat)
                               (seq 0 (length (stock_data self)))))
      by (unfold Dict.keys; rewrite !length_map, length_seq; reflexivity).
    split; [apply map_fst_combine_eq; exact Hlen |].
    rewrite (map_snd_combine_eq _ _ Hlen).
    apply nodup_map_injective; [| apply seq_NoDup].
    intros j k. apply panel_injective.
  - rewrite grid_loop_raises by lia.
    split; [split; [intros _; exact Hgt | reflexivity] |].
    intros panels H. discriminate H.
Qed.

(** X21: under exact arithmetic, with positive closes the series of the
    comparison chart starts at 100 and agrees with the cumulative return
    of the metrics: at every later bar it is
    [100 * (1 + Cumulative_Return[i])]. *)
Theorem normalized_price_follows_cumulative_return (data : DataFrame) :
  positive_prices (Close data) ->
  Close data <> [] ->
  exists norm cum,
    normalized data = Returns norm /\
    Cumulative_Return (add_columns data) = Some cum /\
    length norm = length cum /\
    nth_error norm 0 = Some (Fin 100) /\
    forall i x, (1 <= i)%nat ->
                nth_error cum i = Some x ->
                nth_error norm i = Some (fmul (fadd (Fin 1) x) (Fin 100)).
Proof.
  intros Hpos Hne.
  destruct (Close data) as [| c0 cs] eqn:HC; [congruence |].
  assert (Hc0 : 0 < c0) by (inversion Hpos; assumption).
  exists (map (fun c => fmul (fdiv (Fin c) (Fin c0)) (Fin 100)) (c0 :: cs)).
  exists (cumulative_return (daily_return (c0 :: cs))).
  split; [unfold normalized; rewrite HC; reflexivity |].
  split; [rewrite add_columns_eq, HC; reflexivity |].
  rewrite cumulative_return_positive by assumption.
  split; [cbn [map length]; rewrite !length_map; reflexivity |].
  split.
  - cbn [map nth_error]. rewrite fdiv_fin by lra. cbn [fmul].
    do 2 f_equal. field. lra.
  - intros i x Hi Hx. destruct i as [| j]; [lia |].
    cbn [map nth_error] in *. rewrite nth_error_map in *.
    destruct (nth_error cs j) as [c |]; cbn [option_map] in *;
      [| discriminate].
    injection Hx as <-. rewrite fdiv_fin by lra. cbn [fadd fmul].
    do 2 f_equal. lra.
Qed.

Lemma normalized_price_follows_cumulative_return_witness :
  exists norm cum,
    normalized (raw_frame [100; 110; 99]) = Returns norm /\
    Cumulative_Return (add_columns (raw_frame [100; 110; 99])) = Some cum /\
    length norm = length cum /\
    nth_error norm 0 = Some (Fin 100) /\
    forall i x, (1 <= i)%nat ->
                nth_error cum i = Some x ->
                nth_error norm i = Some (fmul (fadd (Fin 1) x) (Fin 100)).
Proof.
  apply (normalized_price_follows_cumulative_return
           (raw_frame [100; 110; 99])).
  - repeat constructor; simpl; lra.
  - simpl. discriminate.
Defined.




(** * Exact arithmetic and binary64 *)

(** ** The reductions against the textbook statistics *)

Lemma defined_values_dropna (s : Series) : defined_values s = dropna s.
Proof.
  induction s as [| x s IH]; [reflexivity |].
  destruct x; cbn [defined_values dropna filter isna negb];
    fold (dropna s); rewrite ?IH; reflexivity.
Qed.

Lemma fadd_assoc (a b c : float) : fadd a (fadd b c) = fadd (fadd a b) c.
Proof. destruct a, b, c; cbn; trivial. f_equal. ring. Qed.

Lemma fadd_zero_l (a : float) : fadd (Fin 0) a = a.
Proof. destruct a; cbn; trivial. f_equal. ring. Qed.

Lemma fold_fadd_total (xs : list float) (a : float) :
  fold_left fadd xs a = fadd a (total xs).
Proof.
  revert a. induction xs as [| x xs IH]; intros a.
  - cbn. symmetry. apply fadd_zero_r.
  - cbn [fold_left total]. rewrite IH. symmetry. apply fadd_assoc.
Qed.

Lemma fsum_total (xs : list float) : fsum xs = total xs.
Proof. unfold fsum. rewrite fold_fadd_total. apply fadd_zero_l. Qed.

Lemma arith_mean_mean_of (xs : list float) : arith_mean xs = mean_of xs.
Proof.
  unfold arith_mean, mean_of. destruct xs; [reflexivity |].
  rewrite fsum_total. reflexivity.
Qed.

Lemma sample_std_std_of (xs : list float) : sample_std xs = std_of xs.
Proof.
  unfold sample_std, std_of. destruct xs as [| x [| y xs]]; try reflexivity.
  cbn [length Nat.ltb Nat.leb]. cbv zeta.
  rewrite fsum_total, arith_mean_mean_of. reflexivity.
Qed.

Lemma fold_Rplus_Rtotal (xs : list R) (a : R) :
  fold_left Rplus xs a = a + Rtotal xs.
Proof.
  revert a. induction xs as [| x xs IH]; intros a; cbn [fold_left Rtotal].
  - ring.
  - rewrite IH. ring.
Qed.

Lemma mean_of_fin (r : R) (rs : list R) :
  mean_of (map Fin (r :: rs)) = Fin (average (r :: rs)).
Proof.
  rewrite <- arith_mean_mean_of, arith_mean_map_fin.
  unfold average. rewrite fold_Rplus_Rtotal. f_equal. f_equal. ring.
Qed.

Lemma std_of_fin (r1 r2 : R) (rs : list R) :
  std_of (map Fin (r1 :: r2 :: rs)) = Fin (sample_deviation (r1 :: r2 :: rs)).
Proof.
  rewrite <- sample_std_std_of.
  destruct (sample_std_fin r1 r2 rs) as [Hstd _]. cbv zeta in Hstd.
  rewrite Hstd. unfold sample_deviation, average.
  rewrite !fold_Rplus_Rtotal, !Rplus_0_l. reflexivity.
Qed.

Lemma returns_from_changes (p : R) (cs : list R) :
  p <> 0 -> Forall (fun c => c <> 0) cs ->
  returns_from p cs = map Fin (changes_from p cs).
Proof.
  revert p. induction cs as [| c cs IH]; intros p Hp Hcs; [reflexivity |].
  inversion Hcs as [| ? ? Hc Hcs']; subst.
  rewrite returns_from_cons_fin by assumption.
  cbn [changes_from map]. rewrite IH by assumption.
  do 2 f_equal. field. exact Hp.
Qed.

Lemma defined_values_fin (rs : list R) :
  defined_values (map Fin rs) = map Fin rs.
Proof. rewrite defined_values_dropna. apply dropna_map_fin. Qed.

Lemma changes_from_length (p : R) (cs : list R) :
  length (changes_from p cs) = length cs.
Proof. revert p. induction cs; intros p; cbn [changes_from length]; auto. Qed.

(** C6, as amended: under exact arithmetic, for every series of at least
    two bars the summary record holds the sample standard deviation
    (denominator [N - 1]), the arithmetic mean, the maximum and the minimum
    of the defined daily returns, the first close as start price and the
    last close as current price.  When no close is zero the defined daily
    returns are the percentage changes
    [(close[i] - close[i-1]) / close[i-1] * 100], and the four statistics
    are their textbook values on real numbers. *)
Theorem summary_statistics_of_daily_returns (data : DataFrame) :
  (2 <= length (Close data))%nat ->
  exists m daily,
    summary (add_columns data) = Returns m /\
    Daily_Return (add_columns data) = Some daily /\
    volatility m = std_of (defined_values daily) /\
    avg_daily_return m = mean_of (defined_values daily) /\
    is_max (defined_values daily) (best_day m) /\
    is_min (defined_values daily) (worst_day m) /\
    start_price m = Fin (nth 0 (Close data) 0) /\
    current_price m = Fin (last (Close data) 0) /\
    (Forall (fun c => c <> 0) (Close data) ->
     defined_values daily = map Fin (percentage_changes (Close data)) /\
     length (percentage_changes (Close data))
     = (length (Close data) - 1)%nat /\
     avg_daily_return m = Fin (average (percentage_changes (Close data))) /\
     ((3 <= length (Close data))%nat ->
      volatility m
      = Fin (sample_deviation (percentage_changes (Close data)))) /\
     exists hi lo,
       best_day m = Fin hi /\
       worst_day m = Fin lo /\
       is_greatest (percentage_changes (Close data)) hi /\
       is_least (percentage_changes (Close data)) lo).
Proof.
  intros Hlen.
  destruct (Close data) as [| c0 [| c1 cs]] eqn:HC;
    [simpl in Hlen; lia | simpl in Hlen; lia |].
  eexists. exists (daily_return (c0 :: c1 :: cs)).
  split; [exact (summary_add_columns data c0 (c1 :: cs) HC) |].
  split; [rewrite add_columns_eq, HC; reflexivity |].
  cbn [volatility avg_daily_return best_day worst_day start_price
       current_price].
  pose proof (max_defined_values (daily_return (c0 :: c1 :: cs))) as Hmax.
  pose proof (min_defined_values (daily_return (c0 :: c1 :: cs))) as Hmin.
  rewrite std_defined_values, mean_defined_values.
  rewrite sample_std_std_of, arith_mean_mean_of.
  rewrite <- defined_values_dropna in *.
  split; [reflexivity |]. split; [reflexivity |].
  split; [exact Hmax |]. split; [exact Hmin |].
  split; [reflexivity |].
  split; [rewrite ?last_cons_default; reflexivity |].
  intros Hnz. inversion Hnz as [| ? ? Hc0 Htail]; subst.
  cbn [percentage_changes].
  assert (Hd : defined_values (daily_return (c0 :: c1 :: cs))
               = map Fin (changes_from c0 (c1 :: cs))).
  { rewrite daily_return_cons, returns_from_changes by assumption.
    change (defined_values (NaN :: ?l)) with (defined_values l).
    apply defined_values_fin. }
  rewrite Hd in *.
  split; [reflexivity |].
  split; [rewrite changes_from_length; cbn [length]; lia |].
  destruct (changes_from c0 (c1 :: cs)) as [| r1 rs] eqn:Hr;
    [discriminate Hr |].
  split; [apply mean_of_fin |].
  split.
  { intros H3. destruct rs as [| r2 rs].
    - exfalso. apply (f_equal (@length R)) in Hr.
      rewrite changes_from_length in Hr. cbn [length] in Hr, H3. lia.
    - apply std_of_fin. }
  destruct Hmax as [Hin Hle]. destruct Hmin as [Hin' Hle'].
  apply in_map_iff in Hin. destruct Hin as (hi & Hhi & Hhin).
  apply in_map_iff in Hin'. destruct Hin' as (lo & Hlo & Hlin).
  exists hi, lo. rewrite <- Hhi, <- Hlo in *.
  split; [reflexivity |]. split; [reflexivity |].
  split; split; trivial; intros x Hx; apply fleb_fin.
  - apply Hle. apply in_map. exact Hx.
  - apply Hle'. apply in_map. exact Hx.
Qed.

Lemma summary_statistics_of_daily_returns_witness :
  exists m daily,
    summary (add_columns (raw_frame [100; 110; 99])) = Returns m /\
    Daily_Return (add_columns (raw_frame [100; 110; 99])) = Some daily /\
    volatility m = std_of (defined_values daily) /\
    avg_daily_return m = mean_of (defined_values daily) /\
    is_max (defined_values daily) (best_day m) /\
    is_min (defined_values daily) (worst_day m) /\
    start_price m = Fin (nth 0 (Close (raw_frame [100; 110; 99])) 0) /\
    current_price m = Fin (last (Close (raw_frame [100; 110; 99])) 0) /\
    (Forall (fun c => c <> 0) (Close (raw_frame [100; 110; 99])) ->
     defined_values daily
     = map Fin (percentage_changes (Close (raw_frame [100; 110; 99]))) /\
     length (percentage_changes (Close (raw_frame [100; 110; 99])))
     = (length (Close (raw_frame [100%R; 110%R; 99%R])) - 1)%nat /\
     avg_daily_return m
     = Fin (average (percentage_changes
                       (Close (raw_frame [100; 110; 99])))) /\
     ((3 <= length (Close (raw_frame [100%R; 110%R; 99%R])))%nat ->
      volatility m
      = Fin (sample_deviation
               (percentage_changes (Close (raw_frame [100; 110; 99]))))) /\
     exists hi lo,
       best_day m = Fin hi /\
       worst_day m = Fin lo /\
       is_greatest (percentage_changes (Close (raw_frame [100; 110; 99])))
                   hi /\
       is_least (percentage_changes (Close (raw_frame [100; 110; 99]))) lo).
Proof.
  apply (summary_statistics_of_daily_returns (raw_frame [100; 110; 99])).
  simpl. lia.
Defined.

(** ** The same reductions on binary64 numbers *)

(** C6, as stated, fails of the binary64 program.  On the closes 156.25,
    175, 196, 219.52 the three defined daily returns are one and the same
    number, 12.000000000000011, so their arithmetic mean is that number
    and their standard deviation is 0; the mean computed is
    12.000000000000009 and the standard deviation computed is not 0.  The
    three returns being equal, the order in which they are added does not
    matter. *)
Lemma binary64_mean_of_equal_returns_differs :
  exists r,
    Binary64.daily_return Binary64.equal_growth = [PrimFloat.nan; r; r; r] /\
    Binary64.max (Binary64.daily_return Binary64.equal_growth) = r /\
    Binary64.min (Binary64.daily_return Binary64.equal_growth) = r /\
    PrimFloat.eqb (Binary64.mean (Binary64.daily_return Binary64.equal_growth))
                  r = false /\
    PrimFloat.eqb (PrimFloat.add r (PrimFloat.add r r))
                  (PrimFloat.add (PrimFloat.add r r) r) = true /\
    PrimFloat.ltb PrimFloat.zero
                  (Binary64.std (Binary64.daily_return Binary64.equal_growth))
    = true.
Proof.
  eexists. split; [vm_compute; reflexivity |].
  repeat split; vm_compute; reflexivity.
Qed.

(** C10, as stated, fails of the binary64 program: on the closes 156.25,
    175, 196, 219.52 the worst day is 12.000000000000011 and the average
    daily return computed is 12.000000000000009, below it. *)
Lemma binary64_mean_below_worst_day :
  PrimFloat.ltb
    (Binary64.mean (Binary64.daily_return Binary64.equal_growth))
    (Binary64.min (Binary64.daily_return Binary64.equal_growth))
  = true /\
  PrimFloat.leb
    (Binary64.min (Binary64.daily_return Binary64.equal_growth))
    (Binary64.mean (Binary64.daily_return Binary64.equal_growth))
  = false.
Proof. split; vm_compute; reflexivity. Qed.
